(** * UniSave web client: the API service and the page controller

    A shallow embedding of [frontend/src/services/api.ts] and of the two
    event handlers and the two status helpers of [frontend/src/App.tsx],
    with the properties of the client-side contract proved about them.

    Conventions of the embedding.
    - A JavaScript string is a [string] holding its UTF-8 bytes.
    - A JavaScript [number] that the program uses as an identifier or a
      counter is a [Z]; the only falsy number is then [0].
    - An [async] function is a computation in the [Async] monad below: it
      reads the backend, threads the page (component state, file input,
      pending timers, log of requests) and either returns or throws.
    - A React state setter writes its value at once; every setter call of
      the program passes an absolute value, so applying the calls in
      program order gives the state React renders.
    - A handler runs from its event to its last statement without another
      handler running in between (one request in flight at a time). *)

From Stdlib Require Import String Ascii List ZArith Bool Arith Lia.
From Stdlib Require Import DecimalString.
Import ListNotations.

Local Open Scope string_scope.
Set Warnings "-register-all".

(* ------------------------------------------------------------------ *)
(** ** JavaScript strings and values *)

Module JS.

(** [String.prototype.toLowerCase]: the letters [A]..[Z] are mapped to
    [a]..[z].  Bytes of a multi-byte UTF-8 sequence are left alone: the case
    mapping of a non-ASCII letter never produces or consumes an ASCII
    character, so the suffix test made on the result is not affected. *)
Definition lower (c : ascii) : ascii :=
  let n := nat_of_ascii c in
  if (65 <=? n)%nat && (n <=? 90)%nat then ascii_of_nat (n + 32) else c.

Fixpoint toLowerCase (s : string) : string :=
  match s with
  | EmptyString => EmptyString
  | String c r => String (lower c) (toLowerCase r)
  end.

(** [String.prototype.endsWith(searchString)]: the last
    [length searchString] characters of [s] are [searchString]. *)
Definition endsWith (s searchString : string) : bool :=
  let n := String.length s in
  let k := String.length searchString in
  if (k <=? n)%nat then String.eqb (substring (n - k) k s) searchString
  else false.

(** The UTF-8 encodings of the code points that [String.prototype.trim]
    removes: ECMAScript WhiteSpace (TAB, VT, FF, SP, NBSP, ZWNBSP and the
    space separators) and LineTerminator (LF, CR, LS, PS). *)
Definition utf8 (bytes : list nat) : string :=
  string_of_list_ascii (map ascii_of_nat bytes).

Definition whiteSpace : list string :=
  map utf8
    (List.app
       [ [9]; [10]; [11]; [12]; [13]; [32];
         [194; 160];                          (* U+00A0 *)
         [225; 154; 128] ]                    (* U+1680 *)
       (List.app
          (* U+2000..U+200A *)
          (map (fun k => [226; 128; 128 + k]) (seq 0 11))
          [ [226; 128; 168]; [226; 128; 169]; (* U+2028, U+2029 *)
            [226; 128; 175];                  (* U+202F *)
            [226; 129; 159];                  (* U+205F *)
            [227; 128; 128];                  (* U+3000 *)
            [239; 187; 191] ]))%nat.          (* U+FEFF *)

Fixpoint stripPrefix (p s : string) : option string :=
  match p, s with
  | EmptyString, _ => Some s
  | String a p', String b s' =>
      if Ascii.eqb a b then stripPrefix p' s' else None
  | String _ _, EmptyString => None
  end.

(** Remove one leading white-space code point, trying each encoding. *)
Fixpoint stripOne (ws : list string) (s : string) : option string :=
  match ws with
  | [] => None
  | p :: ws' =>
      match stripPrefix p s with
      | Some r => Some r
      | None => stripOne ws' s
      end
  end.

Fixpoint stripAll (ws : list string) (fuel : nat) (s : string) : string :=
  match fuel with
  | O => s
  | S fuel' =>
      match stripOne ws s with
      | Some r => stripAll ws fuel' r
      | None => s
      end
  end.

Definition reverse (s : string) : string :=
  string_of_list_ascii (rev (list_ascii_of_string s)).

Definition trimStart (s : string) : string :=
  stripAll whiteSpace (String.length s) s.

Definition trimEnd (s : string) : string :=
  reverse (stripAll (map reverse whiteSpace) (String.length s) (reverse s)).

(** [String.prototype.trim]. *)
Definition trim (s : string) : string := trimEnd (trimStart s).

(** A value read from a JSON body.  A number whose double is that of an
    integer is [JNum] of that integer; any other number is [JFrac] of the
    text JavaScript prints for it (floating-point arithmetic is outside the
    embedding, and all the program does with such a number is test it and
    print it). *)
Inductive Json : Type :=
| JNull
| JBool (b : bool)
| JNum (n : Z)
| JFrac (printed : string)
| JStr (s : string)
| JArr (items : list Json)
| JObj (fields : list (string * Json)).

(** A value that may be [undefined] is an [option]. *)
Definition Value : Type := option Json.

(** ToBoolean. *)
Definition truthy (v : Value) : bool :=
  match v with
  | None => false
  | Some JNull => false
  | Some (JBool b) => b
  | Some (JNum n) => negb (n =? 0)%Z
  | Some (JFrac _) => true
  | Some (JStr s) => negb (s =? "")
  | Some (JArr _) => true
  | Some (JObj _) => true
  end.

(** Truthiness of a [number | null] and of a [string]. *)
Definition truthyNumber (n : option Z) : bool :=
  match n with
  | None => false
  | Some z => negb (z =? 0)%Z
  end.

Definition truthyString (s : string) : bool := negb (s =? "").

(** [a || b]. *)
Definition or_else (a : Value) (b : Json) : Json :=
  match a with
  | Some v => if truthy a then v else b
  | None => b
  end.

Definition decimal (n : Z) : string := NilZero.string_of_int (Z.to_int n).

(** The double nearest to a non-negative integer, ties going to the even
    mantissa, as an integer; [None] past the largest double (Infinity). *)
Definition nearestDouble (m : Z) : option Z :=
  let bits := if (m =? 0)%Z then 0%Z else (Z.log2 m + 1)%Z in
  if (bits <=? 53)%Z then Some m
  else
    let e := (bits - 53)%Z in
    let q := Z.shiftr m e in
    let r := (m - Z.shiftl q e)%Z in
    let half := Z.shiftl 1 (e - 1) in
    let q' :=
      if (half <? r)%Z || ((r =? half)%Z && Z.odd q) then (q + 1)%Z else q in
    let d := Z.shiftl q' e in
    if (d <? 2 ^ 1024)%Z then Some d else None.

Definition roundsTo (d value : Z) : bool :=
  match nearestDouble value with
  | Some d' => (d' =? d)%Z
  | None => false
  end.

(** Number::toString, step 5: the decimal with the fewest significant
    digits [k] that still denotes the double [d], the one nearest to [d]
    (the even one of two equally near) when several do.  [d] has [digits]
    decimal digits; seventeen significant digits always suffice. *)
Fixpoint shortest (fuel : nat) (k : Z) (d digits : Z) : Z :=
  match fuel with
  | O => d
  | S fuel' =>
      let unit := (10 ^ (digits - k))%Z in
      let low := (d / unit * unit)%Z in
      let high := (low + unit)%Z in
      match roundsTo d low, roundsTo d high with
      | true, true =>
          if (d - low <? high - d)%Z then low
          else if (high - d <? d - low)%Z then high
          else if Z.even (d / unit) then low else high
      | true, false => low
      | false, true => high
      | false, false =>
          if (digits - k <=? 0)%Z then d
          else shortest fuel' (k + 1)%Z d digits
      end
  end.

Fixpoint stripZeros (digits : list ascii) : list ascii :=
  match digits with
  | [] => []
  | c :: rest =>
      match stripZeros rest with
      | [] => if Ascii.eqb c "0" then [] else [c]
      | kept => c :: kept
      end
  end.

(** Number::toString of a positive integer-valued double: plain decimal
    up to 21 digits, exponent notation beyond. *)
Definition printDouble (d : Z) : string :=
  let text :=
    decimal (shortest 17 1 d (Z.of_nat (String.length (decimal d)))) in
  let n := String.length text in
  if (n <=? 21)%nat then text
  else
    match stripZeros (list_ascii_of_string text) with
    | [] => text
    | [c] => String c ("e+" ++ decimal (Z.of_nat n - 1))
    | c :: rest =>
        String c ("." ++ string_of_list_ascii rest
                  ++ "e+" ++ decimal (Z.of_nat n - 1))
    end.

(** ToString of the number that the integer [n] denotes. *)
Definition numberToString (n : Z) : string :=
  if (n =? 0)%Z then "0"
  else
    (if (n <? 0)%Z then "-" else "")
    ++ match nearestDouble (Z.abs n) with
       | Some d => printDouble d
       | None => "Infinity"
       end.

Definition join (sep : string) (parts : list string) : string :=
  match parts with
  | [] => ""
  | p :: rest => fold_left (fun acc q => acc ++ sep ++ q) rest p
  end.

(** The parts that could all be converted, or nothing. *)
Fixpoint allConverted (parts : list (option string)) : option (list string) :=
  match parts with
  | [] => Some []
  | None :: _ => None
  | Some part :: rest =>
      match allConverted rest with
      | Some converted => Some (part :: converted)
      | None => None
      end
  end.

(** The value of the last field named [key]: [JSON.parse] keeps the last
    of two fields with one name. *)
Definition field (key : string) (fields : list (string * Json)) : Value :=
  fold_left (fun acc kv => if fst kv =? key then Some (snd kv) else acc)
            fields None.

(** ToString; [None] when the conversion throws a TypeError.  An array
    prints its elements separated by commas, [null] elements as nothing.
    An object parsed from JSON prints as [[object Object]], through
    [Object.prototype.toString], unless it has a member named [toString]
    of its own: that member is not a function, and [valueOf] never gives
    a primitive, so the conversion throws. *)
Fixpoint toString (v : Json) : option string :=
  match v with
  | JNull => Some "null"
  | JBool true => Some "true"
  | JBool false => Some "false"
  | JNum n => Some (numberToString n)
  | JFrac printed => Some printed
  | JStr s => Some s
  | JArr items =>
      match
        allConverted
          (map (fun x => match x with JNull => Some "" | _ => toString x end)
               items)
      with
      | Some parts => Some (join "," parts)
      | None => None
      end
  | JObj fields =>
      match field "toString" fields with
      | Some _ => None
      | None => Some "[object Object]"
      end
  end.

(** What a computation can throw: an [Error] object (of any subclass) or
    any other value. *)
Inductive Thrown : Type :=
| ErrorObject (name message : string)
| NonError (v : Json).

(** What [throw new Error(message)] throws: the new [Error], or the
    TypeError of converting [message] to a string. *)
Definition newError (message : Json) : Thrown :=
  match toString message with
  | Some text => ErrorObject "Error" text
  | None =>
      ErrorObject "TypeError" "Cannot convert object to primitive value"
  end.

(** [v.key] for a parsed JSON value [v]: reading a property of [null]
    throws a TypeError; a primitive or an array has no such property. *)
Definition getProperty (v : Json) (key : string) : Thrown + Value :=
  match v with
  | JNull =>
      inl (ErrorObject "TypeError"
             ("Cannot read properties of null (reading '" ++ key ++ "')"))
  | JObj fields => inr (field key fields)
  | _ => inr None
  end.

End JS.

(* ------------------------------------------------------------------ *)
(** ** The page and the [Async] monad *)

(** The response interfaces of [api.ts]. *)
Module UploadResponse.
Record t : Type := make {
  id : Z;
  title : string;
  file : string;
  file_url : string;
  uploaded_at : string;
  processing_status : string;     (* 'success' | 'warning' *)
  processing_message : string
}.
End UploadResponse.

Module Claim.
Record t : Type := make {
  claim : string;
  quote_anchor : string;
  page_hint : Z;
  page_id : option Z;
  status : string;                (* 'VERIFIED' | 'LIKELY' | 'UNVERIFIED' *)
  score : Z;
  bboxes : list (list Z)
}.
End Claim.

Module AnalyzeResponse.
Record t : Type := make {
  answer : string;
  claims : list Claim.t;
  chunks_used : Z;
  document_title : string;
  error : option string
}.
End AnalyzeResponse.

Module Document.
Record t : Type := make {
  id : Z;
  title : string;
  file : string;
  file_url : string;
  uploaded_at : string
}.
End Document.

(** A [File] picked in the file input. *)
Record File : Type := { name : string; content : string }.

(** The arguments of one call of [fetch]. *)
Inductive FormValue : Type :=
| FormFile (f : File)
| FormString (s : string).

Inductive RequestBody : Type :=
| NoBody
| FormData (entries : list (string * FormValue))
| JsonText (v : JS.Json).   (* [JSON.stringify v] *)

Record Request : Type := {
  url : string;
  method : string;
  headers : list (string * string);
  body : RequestBody
}.

(** A computation returns a value or throws. *)
Inductive Outcome (A : Type) : Type :=
| Returned (a : A)
| Threw (e : JS.Thrown).
Arguments Returned {A} a.
Arguments Threw {A} e.

(** What [fetch] resolves to.  [response.json()] has type [Promise<any>]:
    on a success status the program uses it at the declared response type
    [T], on any other status as an untyped value; it rejects when the body
    is not JSON. *)
Inductive Response (T : Type) : Type :=
| Success (json : Outcome T)
| Failure (status : Z) (json : Outcome JS.Json).
Arguments Success {T} json.
Arguments Failure {T} status json.

(** [response.ok]. *)
Definition ok {T} (response : Response T) : bool :=
  match response with
  | Success _ => true
  | Failure _ _ => false
  end.

(** The backend, an external collaborator: for each endpoint, what a
    request resolves to (or the error [fetch] rejects with), given the
    requests made so far. *)
Record Backend : Type := {
  documents_POST :
    list Request -> Request -> Outcome (Response UploadResponse.t);
  documents_GET :
    list Request -> Request -> Outcome (Response (list Document.t));
  analyze_POST :
    list Request -> Request -> Outcome (Response AnalyzeResponse.t)
}.

(** The state of the [App] component, one field per [useState]. *)
Record AppState : Type := {
  activeDocId : option Z;
  currentFileUrl : option string;
  documentTitle : string;
  question : string;
  result : option AnalyzeResponse.t;
  highlights : list Claim.t;
  error : option string;
  isUploading : bool;
  isAnalyzing : bool;
  uploadSuccess : bool;
  uploadMessage : option string
}.

(** The initial values given to [useState]. *)
Definition initialState : AppState := {|
  activeDocId := None;
  currentFileUrl := None;
  documentTitle := "";
  question := "";
  result := None;
  highlights := [];
  error := None;
  isUploading := false;
  isAnalyzing := false;
  uploadSuccess := false;
  uploadMessage := None
|}.

(** The file input element behind [fileInputRef]. *)
Record HTMLInputElement : Type := { value : string }.

(** Callbacks handed to [setTimeout]. *)
Inductive Callback : Type :=
| hideUploadSuccess.   (* setUploadSuccess(false); setUploadMessage(null) *)

Record Timer : Type := { callback : Callback; delay : Z }.

(** A request that was sent, with the component state at that moment. *)
Record Sent : Type := { request : Request; stateWhenSent : AppState }.

(** The page: the component state, the element [fileInputRef.current]
    points to ([None] before it is mounted), the timers not yet fired and
    the requests sent, most recent first. *)
Record Page : Type := {
  state : AppState;
  fileInputRef : option HTMLInputElement;
  timers : list Timer;
  sent : list Sent
}.

Definition Async (A : Type) : Type := Backend -> Page -> Outcome A * Page.

Definition ret {A} (a : A) : Async A := fun _ p => (Returned a, p).

Definition throw {A} (e : JS.Thrown) : Async A := fun _ p => (Threw e, p).

Definition bind {A B} (m : Async A) (k : A -> Async B) : Async B :=
  fun b p =>
    match m b p with
    | (Returned a, p') => k a b p'
    | (Threw e, p') => (Threw e, p')
    end.

Declare Scope async_scope.
Delimit Scope async_scope with async.
Notation "x <- m ;; k" := (bind m (fun x => k))
  (at level 100, m at next level, right associativity) : async_scope.
Notation "m ;; k" := (bind m (fun _ => k))
  (at level 100, right associativity) : async_scope.
Local Open Scope async_scope.

(** [await promise], for a promise that is already settled. *)
Definition await {A} (settled : Outcome A) : Async A :=
  fun _ p => (settled, p).

(** [try { body } catch (err) { handler } finally { cleanup }]. *)
Definition try_catch_finally {A}
    (body : Async A) (handler : JS.Thrown -> Async A) (cleanup : Async unit)
  : Async A :=
  fun b p =>
    let '(r, p1) :=
      match body b p with
      | (Returned a, p1) => (Returned a, p1)
      | (Threw e, p1) => handler e b p1
      end in
    match cleanup b p1 with
    | (Returned _, p2) => (r, p2)
    | (Threw e, p2) => (Threw e, p2)
    end.

(** [fetch(url, init)] against the endpoint that serves it: the request
    is logged with the state at that moment, then the backend answers. *)
Definition fetch {T}
    (endpoint : Backend -> list Request -> Request -> Outcome (Response T))
    (req : Request) : Async (Response T) :=
  fun b p =>
    (endpoint b (map request (sent p)) req,
     {| state := state p;
        fileInputRef := fileInputRef p;
        timers := timers p;
        sent := {| request := req; stateWhenSent := state p |} :: sent p |}).

(* ------------------------------------------------------------------ *)
(** ** [services/api.ts] *)

Module Api.

Definition API_BASE_URL : string := "/api".

(** [uploadDocument(file, title?)]. *)
Definition uploadDocument (file : File) (title : option string)
  : Async UploadResponse.t :=
  let formData := [("file", FormFile file)] in
  let formData :=
    match title with
    | Some t =>
        if JS.truthyString t
        then List.app formData [("title", FormString t)]
        else formData
    | None => formData
    end in
  response <- fetch documents_POST
                {| url := API_BASE_URL ++ "/documents/";
                   method := "POST";
                   headers := [];
                   body := FormData formData |} ;;
  match response with
  | Failure _ json =>
      error <- await json ;;
      match JS.getProperty error "error" with
      | inl e => throw e
      | inr message =>
          throw (JS.newError (JS.or_else message (JS.JStr "Upload failed")))
      end
  | Success json => await json
  end.

(** [getDocuments()]. *)
Definition getDocuments : Async (list Document.t) :=
  response <- fetch documents_GET
                {| url := API_BASE_URL ++ "/documents/";
                   method := "GET";
                   headers := [];
                   body := NoBody |} ;;
  match response with
  | Failure _ _ =>
      throw (JS.newError (JS.JStr "Failed to fetch documents"))
  | Success json => await json
  end.

(** [analyzeDocument(docId, question)]. *)
Definition analyzeDocument (docId : Z) (question : string)
  : Async AnalyzeResponse.t :=
  response <- fetch analyze_POST
                {| url := API_BASE_URL ++ "/analyze/";
                   method := "POST";
                   headers := [("Content-Type", "application/json")];
                   body := JsonText (JS.JObj [("doc_id", JS.JNum docId);
                                              ("question", JS.JStr question)])
                |} ;;
  match response with
  | Failure _ json =>
      error <- await json ;;
      match JS.getProperty error "error" with
      | inl e => throw e
      | inr message =>
          throw (JS.newError (JS.or_else message (JS.JStr "Analysis failed")))
      end
  | Success json => await json
  end.

End Api.

(* ------------------------------------------------------------------ *)
(** ** [App.tsx] *)

Module App.

(** Backend URL for media files. *)
Definition BACKEND_URL : string := "http://127.0.0.1:8000".

(** Run a state update of the component. *)
Definition setState (f : AppState -> AppState) : Async unit :=
  fun _ p =>
    (Returned tt,
     {| state := f (state p);
        fileInputRef := fileInputRef p;
        timers := timers p;
        sent := sent p |}).

(** The setters returned by [useState]. *)
Definition setActiveDocId (v : option Z) : Async unit :=
  setState (fun s =>
    {| activeDocId := v; currentFileUrl := currentFileUrl s;
       documentTitle := documentTitle s; question := question s;
       result := result s; highlights := highlights s; error := error s;
       isUploading := isUploading s; isAnalyzing := isAnalyzing s;
       uploadSuccess := uploadSuccess s; uploadMessage := uploadMessage s |}).

Definition setCurrentFileUrl (v : option string) : Async unit :=
  setState (fun s =>
    {| activeDocId := activeDocId s; currentFileUrl := v;
       documentTitle := documentTitle s; question := question s;
       result := result s; highlights := highlights s; error := error s;
       isUploading := isUploading s; isAnalyzing := isAnalyzing s;
       uploadSuccess := uploadSuccess s; uploadMessage := uploadMessage s |}).

Definition setDocumentTitle (v : string) : Async unit :=
  setState (fun s =>
    {| activeDocId := activeDocId s; currentFileUrl := currentFileUrl s;
       documentTitle := v; question := question s;
       result := result s; highlights := highlights s; error := error s;
       isUploading := isUploading s; isAnalyzing := isAnalyzing s;
       uploadSuccess := uploadSuccess s; uploadMessage := uploadMessage s |}).

Definition setQuestion (v : string) : Async unit :=
  setState (fun s =>
    {| activeDocId := activeDocId s; currentFileUrl := currentFileUrl s;
       documentTitle := documentTitle s; question := v;
       result := result s; highlights := highlights s; error := error s;
       isUploading := isUploading s; isAnalyzing := isAnalyzing s;
       uploadSuccess := uploadSuccess s; uploadMessage := uploadMessage s |}).

Definition setResult (v : option AnalyzeResponse.t) : Async unit :=
  setState (fun s =>
    {| activeDocId := activeDocId s; currentFileUrl := currentFileUrl s;
       documentTitle := documentTitle s; question := question s;
       result := v; highlights := highlights s; error := error s;
       isUploading := isUploading s; isAnalyzing := isAnalyzing s;
       uploadSuccess := uploadSuccess s; uploadMessage := uploadMessage s |}).

Definition setHighlights (v : list Claim.t) : Async unit :=
  setState (fun s =>
    {| activeDocId := activeDocId s; currentFileUrl := currentFileUrl s;
       documentTitle := documentTitle s; question := question s;
       result := result s; highlights := v; error := error s;
       isUploading := isUploading s; isAnalyzing := isAnalyzing s;
       uploadSuccess := uploadSuccess s; uploadMessage := uploadMessage s |}).

Definition setError (v : option string) : Async unit :=
  setState (fun s =>
    {| activeDocId := activeDocId s; currentFileUrl := currentFileUrl s;
       documentTitle := documentTitle s; question := question s;
       result := result s; highlights := highlights s; error := v;
       isUploading := isUploading s; isAnalyzing := isAnalyzing s;
       uploadSuccess := uploadSuccess s; uploadMessage := uploadMessage s |}).

Definition setIsUploading (v : bool) : Async unit :=
  setState (fun s =>
    {| activeDocId := activeDocId s; currentFileUrl := currentFileUrl s;
       documentTitle := documentTitle s; question := question s;
       result := result s; highlights := highlights s; error := error s;
       isUploading := v; isAnalyzing := isAnalyzing s;
       uploadSuccess := uploadSuccess s; uploadMessage := uploadMessage s |}).

Definition setIsAnalyzing (v : bool) : Async unit :=
  setState (fun s =>
    {| activeDocId := activeDocId s; currentFileUrl := currentFileUrl s;
       documentTitle := documentTitle s; question := question s;
       result := result s; highlights := highlights s; error := error s;
       isUploading := isUploading s; isAnalyzing := v;
       uploadSuccess := uploadSuccess s; uploadMessage := uploadMessage s |}).

Definition setUploadSuccess (v : bool) : Async unit :=
  setState (fun s =>
    {| activeDocId := activeDocId s; currentFileUrl := currentFileUrl s;
       documentTitle := documentTitle s; question := question s;
       result := result s; highlights := highlights s; error := error s;
       isUploading := isUploading s; isAnalyzing := isAnalyzing s;
       uploadSuccess := v; uploadMessage := uploadMessage s |}).

Definition setUploadMessage (v : option string) : Async unit :=
  setState (fun s =>
    {| activeDocId := activeDocId s; currentFileUrl := currentFileUrl s;
       documentTitle := documentTitle s; question := question s;
       result := result s; highlights := highlights s; error := error s;
       isUploading := isUploading s; isAnalyzing := isAnalyzing s;
       uploadSuccess := uploadSuccess s; uploadMessage := v |}).

(** The values of the state variables a handler closes over. *)
Definition getState : Async AppState := fun _ p => (Returned (state p), p).

(** [setTimeout(callback, delay)]. *)
Definition setTimeout (c : Callback) (ms : Z) : Async unit :=
  fun _ p =>
    (Returned tt,
     {| state := state p;
        fileInputRef := fileInputRef p;
        timers := List.app (timers p) [{| callback := c; delay := ms |}];
        sent := sent p |}).

(** [if (fileInputRef.current) { fileInputRef.current.value = '' }]. *)
Definition resetFileInput : Async unit :=
  fun _ p =>
    (Returned tt,
     {| state := state p;
        fileInputRef :=
          match fileInputRef p with
          | Some _ => Some {| value := "" |}
          | None => None
          end;
        timers := timers p;
        sent := sent p |}).

(** The change event of the file input: [event.target.files]. *)
Record ChangeEvent : Type := { files : option (list File) }.

(** [err instanceof Error ? err.message : fallback]. *)
Definition messageOf (err : JS.Thrown) (fallback : string) : string :=
  match err with
  | JS.ErrorObject _ message => message
  | JS.NonError _ => fallback
  end.

(** Handle file upload. *)
Definition handleUpload (event : ChangeEvent) : Async unit :=
  let file :=
    match files event with
    | Some (f :: _) => Some f
    | _ => None
    end in
  match file with
  | None => ret tt
  | Some file =>
      (* Validate PDF *)
      if negb (JS.endsWith (JS.toLowerCase (name file)) ".pdf") then
        setError (Some "Please select a PDF file")
      else
        setIsUploading true ;;
        setError None ;;
        setUploadSuccess false ;;
        setUploadMessage None ;;
        try_catch_finally
          (response <- Api.uploadDocument file None ;;
           (* Set document state *)
           setActiveDocId (Some (UploadResponse.id response)) ;;
           setCurrentFileUrl
             (Some (BACKEND_URL ++ UploadResponse.file_url response)) ;;
           setDocumentTitle (UploadResponse.title response) ;;
           (* Clear previous analysis state for fresh UI *)
           setResult None ;;
           setHighlights [] ;;
           setQuestion "" ;;
           (* Show success feedback *)
           setUploadSuccess true ;;
           setUploadMessage
             (Some (UploadResponse.processing_message response)) ;;
           (* Auto-hide success message after 5 seconds *)
           setTimeout hideUploadSuccess 5000)
          (fun err => setError (Some (messageOf err "Upload failed")))
          (setIsUploading false ;;
           (* Reset file input *)
           resetFileInput)
  end.

(** The number behind a [number | null] that a guard has found truthy. *)
Definition narrowed (n : option Z) : Z :=
  match n with
  | Some z => z
  | None => 0
  end.

(** Handle document analysis. *)
Definition handleAnalyze : Async unit :=
  closure <- getState ;;
  let activeDocId := activeDocId closure in
  let question := question closure in
  if negb (JS.truthyNumber activeDocId) then
    setError (Some "Please upload a document first")
  else if negb (JS.truthyString (JS.trim question)) then
    setError (Some "Please enter a question")
  else
    setIsAnalyzing true ;;
    setError None ;;
    setResult None ;;
    setHighlights [] ;;
    try_catch_finally
      (response <- Api.analyzeDocument (narrowed activeDocId) question ;;
       setResult (Some response) ;;
       setHighlights (AnalyzeResponse.claims response))
      (fun err => setError (Some (messageOf err "Analysis failed")))
      (setIsAnalyzing false).

(** Get status badge color. *)
Definition getStatusColor (status : string) : string :=
  if status =? "VERIFIED" then "bg-green-100 text-green-800 border-green-300"
  else if status =? "LIKELY" then
    "bg-yellow-100 text-yellow-800 border-yellow-300"
  else if status =? "UNVERIFIED" then "bg-red-100 text-red-800 border-red-300"
  else "bg-gray-100 text-gray-800 border-gray-300".

(** Get status icon. *)
Definition getStatusIcon (status : string) : string :=
  if status =? "VERIFIED" then "✓"
  else if status =? "LIKELY" then "⚠"
  else if status =? "UNVERIFIED" then "✗"
  else "?".

(** Attributes the render computes from the state: [disabled] of the file
    input, of the question box and of the Analyze button, and whether the
    error panel is rendered ([error && ...]). *)
Definition fileInputDisabled (s : AppState) : bool := isUploading s.

Definition questionDisabled (s : AppState) : bool :=
  negb (JS.truthyNumber (activeDocId s)).

Definition analyzeDisabled (s : AppState) : bool :=
  isAnalyzing s
  || negb (JS.truthyNumber (activeDocId s))
  || negb (JS.truthyString (JS.trim (question s))).

Definition errorShown (s : AppState) : bool :=
  match error s with
  | Some message => JS.truthyString message
  | None => false
  end.

(** The citation cards the render shows: inside the result section
    ([result && ...]) and only for a non-empty list
    ([highlights.length > 0 && ...]), one card per highlight, with its
    class name and its icon. *)
Definition citations (s : AppState) : list (string * string) :=
  match result s with
  | None => []
  | Some _ =>
      if (0 <? List.length (highlights s))%nat then
        map (fun claim =>
               ("p-4 rounded-xl border "
                ++ getStatusColor (Claim.status claim),
                getStatusIcon (Claim.status claim)))
            (highlights s)
      else []
  end.

(** A fired timer runs its callback. *)
Definition runCallback (c : Callback) : Async unit :=
  match c with
  | hideUploadSuccess => setUploadSuccess false ;; setUploadMessage None
  end.

(** What can happen on the page: a file is picked in the file input, the
    question box is edited ([onChange] of the textarea), the Analyze
    button is clicked, the oldest pending timer fires. *)
Inductive Event : Type :=
| FileChange (e : ChangeEvent)
| QuestionChange (text : string)
| AnalyzeClick
| TimerFire.

Definition popTimer : Async (option Callback) :=
  fun _ p =>
    match timers p with
    | [] => (Returned None, p)
    | t :: rest =>
        (Returned (Some (callback t)),
         {| state := state p; fileInputRef := fileInputRef p;
            timers := rest; sent := sent p |})
    end.

Definition dispatch (ev : Event) : Async unit :=
  match ev with
  | FileChange e => handleUpload e
  | QuestionChange text => setQuestion text
  | AnalyzeClick => handleAnalyze
  | TimerFire =>
      c <- popTimer ;;
      match c with
      | Some c => runCallback c
      | None => ret tt
      end
  end.

(** The page after an event ([dispatch] never throws: each handler
    catches what its request throws). *)
Definition after (b : Backend) (ev : Event) (p : Page) : Page :=
  snd (dispatch ev b p).

Definition afterAll (b : Backend) (evs : list Event) (p : Page) : Page :=
  fold_left (fun p ev => after b ev p) evs p.

End App.

(* ------------------------------------------------------------------ *)
(** ** Vocabulary of the statements *)

(** A file name ends in [.pdf], letters compared without regard to case:
    it is a stem followed by a dot and the letters p, d, f, each in either
    case. *)
Definition endsInPdf (fileName : string) : Prop :=
  exists stem p d f,
    fileName = stem ++ String "." (String p (String d (String f "")))
    /\ (p = "p" \/ p = "P")%char
    /\ (d = "d" \/ d = "D")%char
    /\ (f = "f" \/ f = "F")%char.

(** The page after a request has been sent from it. *)
Definition pushSent (req : Request) (p : Page) : Page :=
  {| state := state p;
     fileInputRef := fileInputRef p;
     timers := timers p;
     sent := {| request := req; stateWhenSent := state p |} :: sent p |}.

(** The requests the three operations of the API client send. *)
Definition uploadRequest (file : File) (title : option string) : Request :=
  {| url := "/api/documents/";
     method := "POST";
     headers := [];
     body := FormData
               (("file", FormFile file)
                :: match title with
                   | Some t =>
                       if t =? "" then [] else [("title", FormString t)]
                   | None => []
                   end) |}.

Definition listRequest : Request :=
  {| url := "/api/documents/"; method := "GET"; headers := [];
     body := NoBody |}.

Definition analyzeRequest (docId : Z) (question : string) : Request :=
  {| url := "/api/analyze/";
     method := "POST";
     headers := [("Content-Type", "application/json")];
     body := JsonText (JS.JObj [("doc_id", JS.JNum docId);
                                ("question", JS.JStr question)]) |}.

(** The [doc_id] of a JSON request body. *)
Definition docIdSent (req : Request) : option Z :=
  match body req with
  | JsonText (JS.JObj fields) =>
      match JS.field "doc_id" fields with
      | Some (JS.JNum n) => Some n
      | _ => None
      end
  | _ => None
  end.

(** The change event of picking [file] (and possibly more files). *)
Definition pick (file : File) (others : list File) : App.Event :=
  App.FileChange {| App.files := Some (file :: others) |}.

Definition isFileChange (ev : App.Event) : bool :=
  match ev with
  | App.FileChange _ => true
  | _ => false
  end.

(** The [error] member of the body of a refused request, for a body other
    than [null]: only an object has one. *)
Definition errorField (body : JS.Json) : JS.Value :=
  match body with
  | JS.JObj fields => JS.field "error" fields
  | _ => None
  end.

(** The [error] member is missing, or one of the falsy values of JSON. *)
Definition missingOrFalsy (v : JS.Value) : Prop :=
  v = None
  \/ v = Some JS.JNull
  \/ v = Some (JS.JBool false)
  \/ v = Some (JS.JNum 0)
  \/ v = Some (JS.JStr "").

Definition noFileChange (evs : list App.Event) : bool :=
  forallb (fun ev => negb (isFileChange ev)) evs.

(** A string made of white-space code points only (possibly none). *)
Definition blank (s : string) : Prop :=
  exists parts,
    Forall (fun part => In part JS.whiteSpace) parts
    /\ s = fold_right String.append "" parts.

(** The component state while an upload request is pending, after an
    upload that returned [r], and after one that threw [e]. *)
Definition uploadingState (s : AppState) : AppState :=
  {| activeDocId := activeDocId s;
     currentFileUrl := currentFileUrl s;
     documentTitle := documentTitle s;
     question := question s;
     result := result s;
     highlights := highlights s;
     error := None;
     isUploading := true;
     isAnalyzing := isAnalyzing s;
     uploadSuccess := false;
     uploadMessage := None |}.

Definition uploadedState (r : UploadResponse.t) (s : AppState) : AppState :=
  {| activeDocId := Some (UploadResponse.id r);
     currentFileUrl := Some (App.BACKEND_URL ++ UploadResponse.file_url r);
     documentTitle := UploadResponse.title r;
     question := "";
     result := None;
     highlights := [];
     error := None;
     isUploading := false;
     isAnalyzing := isAnalyzing s;
     uploadSuccess := true;
     uploadMessage := Some (UploadResponse.processing_message r) |}.

Definition uploadFailedState (e : JS.Thrown) (s : AppState) : AppState :=
  {| activeDocId := activeDocId s;
     currentFileUrl := currentFileUrl s;
     documentTitle := documentTitle s;
     question := question s;
     result := result s;
     highlights := highlights s;
     error := Some (App.messageOf e "Upload failed");
     isUploading := false;
     isAnalyzing := isAnalyzing s;
     uploadSuccess := false;
     uploadMessage := None |}.

(** The component state while an analyze request is pending, after an
    analysis that returned [a], and after one that threw [e]. *)
Definition analyzingState (s : AppState) : AppState :=
  {| activeDocId := activeDocId s;
     currentFileUrl := currentFileUrl s;
     documentTitle := documentTitle s;
     question := question s;
     result := None;
     highlights := [];
     error := None;
     isUploading := isUploading s;
     isAnalyzing := true;
     uploadSuccess := uploadSuccess s;
     uploadMessage := uploadMessage s |}.

Definition analyzedState (a : AnalyzeResponse.t) (s : AppState) : AppState :=
  {| activeDocId := activeDocId s;
     currentFileUrl := currentFileUrl s;
     documentTitle := documentTitle s;
     question := question s;
     result := Some a;
     highlights := AnalyzeResponse.claims a;
     error := None;
     isUploading := isUploading s;
     isAnalyzing := false;
     uploadSuccess := uploadSuccess s;
     uploadMessage := uploadMessage s |}.

Definition analyzeFailedState (e : JS.Thrown) (s : AppState) : AppState :=
  {| activeDocId := activeDocId s;
     currentFileUrl := currentFileUrl s;
     documentTitle := documentTitle s;
     question := question s;
     result := None;
     highlights := [];
     error := Some (App.messageOf e "Analysis failed");
     isUploading := isUploading s;
     isAnalyzing := false;
     uploadSuccess := uploadSuccess s;
     uploadMessage := uploadMessage s |}.

(** The state with another error message, another question, and without
    the upload banner. *)
Definition errorState (message : string) (s : AppState) : AppState :=
  {| activeDocId := activeDocId s;
     currentFileUrl := currentFileUrl s;
     documentTitle := documentTitle s;
     question := question s;
     result := result s;
     highlights := highlights s;
     error := Some message;
     isUploading := isUploading s;
     isAnalyzing := isAnalyzing s;
     uploadSuccess := uploadSuccess s;
     uploadMessage := uploadMessage s |}.

Definition questionState (text : string) (s : AppState) : AppState :=
  {| activeDocId := activeDocId s;
     currentFileUrl := currentFileUrl s;
     documentTitle := documentTitle s;
     question := text;
     result := result s;
     highlights := highlights s;
     error := error s;
     isUploading := isUploading s;
     isAnalyzing := isAnalyzing s;
     uploadSuccess := uploadSuccess s;
     uploadMessage := uploadMessage s |}.

Definition bannerHiddenState (s : AppState) : AppState :=
  {| activeDocId := activeDocId s;
     currentFileUrl := currentFileUrl s;
     documentTitle := documentTitle s;
     question := question s;
     result := result s;
     highlights := highlights s;
     error := error s;
     isUploading := isUploading s;
     isAnalyzing := isAnalyzing s;
     uploadSuccess := false;
     uploadMessage := None |}.

(** The file input once emptied: an element that is not mounted stays so. *)
Definition emptied (input : option HTMLInputElement)
  : option HTMLInputElement :=
  match input with
  | Some _ => Some {| value := "" |}
  | None => None
  end.

Definition hideTimer : Timer :=
  {| callback := hideUploadSuccess; delay := 5000 |}.

(** The page with another component state. *)
Definition withState (s : AppState) (p : Page) : Page :=
  {| state := s;
     fileInputRef := fileInputRef p;
     timers := timers p;
     sent := sent p |}.

(** The pages an upload that returned, an upload that threw, an analysis
    that returned and an analysis that threw leave behind. *)
Definition uploadedPage (file : File) (r : UploadResponse.t) (p : Page)
  : Page :=
  {| state := uploadedState r (state p);
     fileInputRef := emptied (fileInputRef p);
     timers := List.app (timers p) [hideTimer];
     sent := {| request := uploadRequest file None;
                stateWhenSent := uploadingState (state p) |} :: sent p |}.

Definition uploadFailedPage (file : File) (e : JS.Thrown) (p : Page) : Page :=
  {| state := uploadFailedState e (state p);
     fileInputRef := emptied (fileInputRef p);
     timers := timers p;
     sent := {| request := uploadRequest file None;
                stateWhenSent := uploadingState (state p) |} :: sent p |}.

Definition analyzedPage (docId : Z) (a : AnalyzeResponse.t) (p : Page)
  : Page :=
  {| state := analyzedState a (state p);
     fileInputRef := fileInputRef p;
     timers := timers p;
     sent := {| request := analyzeRequest docId (question (state p));
                stateWhenSent := analyzingState (state p) |} :: sent p |}.

Definition analyzeFailedPage (docId : Z) (e : JS.Thrown) (p : Page) : Page :=
  {| state := analyzeFailedState e (state p);
     fileInputRef := fileInputRef p;
     timers := timers p;
     sent := {| request := analyzeRequest docId (question (state p));
                stateWhenSent := analyzingState (state p) |} :: sent p |}.

(** The page with the banner hidden and the oldest timer gone. *)
Definition timerFiredPage (rest : list Timer) (p : Page) : Page :=
  {| state := bannerHiddenState (state p);
     fileInputRef := fileInputRef p;
     timers := rest;
     sent := sent p |}.

(** The kinds of change one event can make to the page. *)
Inductive step (p : Page) : Page -> Prop :=
| step_nothing : step p p
| step_error (message : string) :
    message <> "" ->
    step p (withState (errorState message (state p)) p)
| step_uploaded (file : File) (r : UploadResponse.t) :
    step p (uploadedPage file r p)
| step_upload_failed (file : File) (e : JS.Thrown) :
    step p (uploadFailedPage file e p)
| step_analyzed (docId : Z) (a : AnalyzeResponse.t) :
    activeDocId (state p) = Some docId ->
    docId <> 0%Z ->
    step p (analyzedPage docId a p)
| step_analyze_failed (docId : Z) (e : JS.Thrown) :
    activeDocId (state p) = Some docId ->
    docId <> 0%Z ->
    step p (analyzeFailedPage docId e p)
| step_question (text : string) :
    step p (withState (questionState text (state p)) p)
| step_timer (t : Timer) (rest : list Timer) :
    timers p = t :: rest ->
    step p (timerFiredPage rest p).

(** No request is in flight. *)
Definition atRest (s : AppState) : Prop :=
  isUploading s = false /\ isAnalyzing s = false.

(** The highlights are the claims of the result shown (none without a
    result), and a result is shown only while a document is active. *)
Definition answerBound (s : AppState) : Prop :=
  highlights s
  = match result s with
    | Some a => AnalyzeResponse.claims a
    | None => []
    end
  /\ (result s <> None -> JS.truthyNumber (activeDocId s) = true).


(** A logged request is one of the two POST requests of the page, sent
    with the error cleared and the busy flag of its flow set. *)
Definition sentByPage (s : Sent) : Prop :=
  method (request s) = "POST"
  /\ error (stateWhenSent s) = None
  /\ ((url (request s) = "/api/documents/"
       /\ isUploading (stateWhenSent s) = true)
      \/ (url (request s) = "/api/analyze/"
          /\ isAnalyzing (stateWhenSent s) = true)).

(** Sample inputs. *)
Definition notes_txt : File := {| name := "notes.txt"; content := "notes" |}.
Definition notes_pdf : File := {| name := "notes.pdf"; content := "%PDF-1.4" |}.

Definition notesUploaded : UploadResponse.t :=
  {| UploadResponse.id := 7;
     UploadResponse.title := "Notes";
     UploadResponse.file := "notes.pdf";
     UploadResponse.file_url := "/media/notes.pdf";
     UploadResponse.uploaded_at := "2024-01-01T00:00:00Z";
     UploadResponse.processing_status := "success";
     UploadResponse.processing_message := "Document processed" |}.

Definition zeroUploaded : UploadResponse.t :=
  {| UploadResponse.id := 0;
     UploadResponse.title := "Notes";
     UploadResponse.file := "notes.pdf";
     UploadResponse.file_url := "/media/notes.pdf";
     UploadResponse.uploaded_at := "2024-01-01T00:00:00Z";
     UploadResponse.processing_status := "success";
     UploadResponse.processing_message := "Document processed" |}.

Definition thesisClaim : Claim.t :=
  {| Claim.claim := "The thesis is X";
     Claim.quote_anchor := "X";
     Claim.page_hint := 1;
     Claim.page_id := None;
     Claim.status := "VERIFIED";
     Claim.score := 92;
     Claim.bboxes := [] |}.

Definition thesisAnalyzed : AnalyzeResponse.t :=
  {| AnalyzeResponse.answer := "X";
     AnalyzeResponse.claims := [thesisClaim];
     AnalyzeResponse.chunks_used := 3;
     AnalyzeResponse.document_title := "Notes";
     AnalyzeResponse.error := None |}.

(** A backend that cannot be reached: every [fetch] rejects. *)
Definition offline : Backend :=
  let reject {T} : list Request -> Request -> Outcome (Response T) :=
    fun _ _ => Threw (JS.ErrorObject "TypeError" "Failed to fetch") in
  {| documents_POST := reject;
     documents_GET := reject;
     analyze_POST := reject |}.

(** A backend that accepts every request with the given answers. *)
Definition serving (u : UploadResponse.t) (a : AnalyzeResponse.t) : Backend :=
  {| documents_POST := fun _ _ => Returned (Success (Returned u));
     documents_GET := fun _ _ => Returned (Success (Returned []));
     analyze_POST := fun _ _ => Returned (Success (Returned a)) |}.

(** A backend that refuses every request with one status and body. *)
Definition refusing (status : Z) (body : Outcome JS.Json) : Backend :=
  {| documents_POST := fun _ _ => Returned (Failure status body);
     documents_GET := fun _ _ => Returned (Failure status body);
     analyze_POST := fun _ _ => Returned (Failure status body) |}.

Definition notesBackend : Backend := serving notesUploaded thesisAnalyzed.

Definition zeroBackend : Backend := serving zeroUploaded thesisAnalyzed.

Definition noFileBody : list (string * JS.Json) :=
  [("error", JS.JStr "No file provided")].

Definition noFileBackend : Backend :=
  refusing 400 (Returned (JS.JObj noFileBody)).


Definition typeThenClick : list App.Event :=
  [App.QuestionChange "What is the thesis?"; App.AnalyzeClick].

(** A whole session: a file is picked, the question typed, Analyze
    clicked, and the banner timer fires. *)
Definition wholeSession : list App.Event :=
  [App.FileChange {| App.files := Some [notes_pdf] |};
   App.QuestionChange "What is the thesis?";
   App.AnalyzeClick;
   App.TimerFire].

(** The state with document 7 active, a question asked and answered, and
    the success banner of the upload still shown. *)
Definition notesState : AppState :=
  {| activeDocId := Some 7%Z;
     currentFileUrl := Some "http://127.0.0.1:8000/media/notes.pdf";
     documentTitle := "Notes";
     question := "What is the thesis?";
     result := Some thesisAnalyzed;
     highlights := [thesisClaim];
     error := None;
     isUploading := false;
     isAnalyzing := false;
     uploadSuccess := true;
     uploadMessage := Some "Document processed" |}.

(** A state whose active document id is 0 and whose question is blank. *)
Definition zeroDocState : AppState :=
  {| activeDocId := Some 0%Z;
     currentFileUrl := Some "http://127.0.0.1:8000/media/notes.pdf";
     documentTitle := "Notes";
     question := "   ";
     result := None;
     highlights := [];
     error := None;
     isUploading := false;
     isAnalyzing := false;
     uploadSuccess := false;
     uploadMessage := None |}.



(** The page as first rendered, and the page with some state, the file
    input holding a path, no timer pending and nothing sent. *)
Definition pageWith (s : AppState) (path : string) : Page :=
  {| state := s;
     fileInputRef := Some {| value := path |};
     timers := [];
     sent := [] |}.

Definition firstPage : Page := pageWith initialState "".

Definition notesPage : Page := pageWith notesState "".

Definition zeroDocPage : Page := pageWith zeroDocState "".

(** The page just after [notes.txt] has been picked in the file input. *)
Definition txtPickedPage : Page :=
  pageWith initialState "C:\fakepath\notes.txt".

(* ------------------------------------------------------------------ *)
(** ** Facts about the string operations *)

Section Strings.

Lemma substring_all (s : string) : substring 0 (String.length s) s = s.
Proof. induction s as [|c s IH]; simpl; [reflexivity | now rewrite IH]. Qed.

Lemma substring_suffix (a b : string) :
  substring (String.length a) (String.length b) (a ++ b) = b.
Proof. induction a as [|c a IH]; simpl; [apply substring_all | exact IH]. Qed.

Lemma length_append (a b : string) :
  String.length (a ++ b) = String.length a + String.length b.
Proof. induction a as [|c a IH]; simpl; [reflexivity | now rewrite IH]. Qed.

(** A string splits at any position up to its length. *)
Lemma split_at (s : string) (m : nat) :
  m <= String.length s ->
  exists a b, s = a ++ b /\ String.length a = m.
Proof.
  revert m; induction s as [|c s IH]; intros [|m] Hm; simpl in *.
  - now exists "", "".
  - lia.
  - now exists "", (String c s).
  - destruct (IH m) as (a & b & -> & <-); [lia|].
    now exists (String c a), b.
Qed.

Lemma toLowerCase_append (a b : string) :
  JS.toLowerCase (a ++ b) = JS.toLowerCase a ++ JS.toLowerCase b.
Proof. induction a as [|c a IH]; simpl; [reflexivity | now rewrite IH]. Qed.

Lemma toLowerCase_length (s : string) :
  String.length (JS.toLowerCase s) = String.length s.
Proof. induction s as [|c s IH]; simpl; [reflexivity | now rewrite IH]. Qed.

(** [endsWith] holds exactly of the strings that end with the suffix. *)
Lemma endsWith_spec (s suffix : string) :
  JS.endsWith s suffix = true <-> exists stem, s = stem ++ suffix.
Proof.
  unfold JS.endsWith; split.
  - destruct (Nat.leb_spec (String.length suffix) (String.length s))
      as [Hle|]; [|discriminate].
    intros H; apply String.eqb_eq in H.
    destruct (split_at s (String.length s - String.length suffix))
      as (a & b & -> & Ha); [lia|].
    rewrite length_append in *.
    replace (String.length a + String.length b - String.length suffix)
      with (String.length a) in H by lia.
    assert (Hb : String.length b = String.length suffix) by lia.
    rewrite <- Hb, substring_suffix in H. subst b. now exists a.
  - intros [stem ->]. rewrite length_append.
    destruct (Nat.leb_spec (String.length suffix)
                (String.length stem + String.length suffix)); [|lia].
    replace (String.length stem + String.length suffix - String.length suffix)
      with (String.length stem) by lia.
    rewrite substring_suffix. apply String.eqb_refl.
Qed.

(** The characters [lower] sends to a given lower-case letter or to the
    dot. *)
Lemma lower_dot (c : ascii) : JS.lower c = "."%char -> c = "."%char.
Proof.
  destruct c as [[] [] [] [] [] [] [] []]; vm_compute; intros H;
    first [reflexivity | discriminate H].
Qed.

Lemma lower_p (c : ascii) :
  JS.lower c = "p"%char -> c = "p"%char \/ c = "P"%char.
Proof.
  destruct c as [[] [] [] [] [] [] [] []]; vm_compute; intros H;
    first [now left | now right | discriminate H].
Qed.

Lemma lower_d (c : ascii) :
  JS.lower c = "d"%char -> c = "d"%char \/ c = "D"%char.
Proof.
  destruct c as [[] [] [] [] [] [] [] []]; vm_compute; intros H;
    first [now left | now right | discriminate H].
Qed.

Lemma lower_f (c : ascii) :
  JS.lower c = "f"%char -> c = "f"%char \/ c = "F"%char.
Proof.
  destruct c as [[] [] [] [] [] [] [] []]; vm_compute; intros H;
    first [now left | now right | discriminate H].
Qed.

(** [trim] runs to the end: the fuel, one unit per byte, is enough, so
    the result starts and ends with no white space. *)
Lemma stripPrefix_length (p s r : string) :
  JS.stripPrefix p s = Some r ->
  String.length s = String.length p + String.length r.
Proof.
  revert s; induction p as [|a p IH]; intros [|c s] H; simpl in *;
    try discriminate.
  - now injection H as <-.
  - now injection H as <-.
  - destruct (Ascii.eqb a c); [|discriminate]. now rewrite (IH s H).
Qed.

Lemma stripOne_shorter (ws : list string) (s r : string) :
  Forall (fun p => p <> "") ws ->
  JS.stripOne ws s = Some r ->
  String.length r < String.length s.
Proof.
  induction 1 as [|p ws Hp _ IH]; simpl; [discriminate|].
  destruct (JS.stripPrefix p s) as [r'|] eqn:E; [|exact IH].
  intros H; injection H as ->. apply stripPrefix_length in E.
  destruct p; [contradiction | simpl in E; lia].
Qed.

Lemma stripAll_done (ws : list string) (fuel : nat) (s : string) :
  Forall (fun p => p <> "") ws ->
  String.length s <= fuel ->
  JS.stripOne ws (JS.stripAll ws fuel s) = None.
Proof.
  intros Hws; revert s; induction fuel as [|fuel IH]; intros s Hs; simpl.
  - destruct (JS.stripOne ws s) as [r|] eqn:E; [|reflexivity].
    apply (stripOne_shorter ws s r Hws) in E. lia.
  - destruct (JS.stripOne ws s) as [r|] eqn:E; [|exact E].
    apply IH. apply (stripOne_shorter ws s r Hws) in E. lia.
Qed.

Lemma whiteSpace_nonempty : Forall (fun p => p <> "") JS.whiteSpace.
Proof. repeat constructor; discriminate. Qed.

Lemma reversed_whiteSpace_nonempty :
  Forall (fun p => p <> "") (map JS.reverse JS.whiteSpace).
Proof. repeat constructor; discriminate. Qed.

Lemma reverse_involutive (s : string) : JS.reverse (JS.reverse s) = s.
Proof.
  unfold JS.reverse.
  now rewrite list_ascii_of_string_of_list_ascii, rev_involutive,
    string_of_list_ascii_of_string.
Qed.

Lemma length_of_list (l : list ascii) :
  String.length (string_of_list_ascii l) = List.length l.
Proof. induction l as [|c l IH]; simpl; [reflexivity | now rewrite IH]. Qed.

Lemma length_to_list (s : string) :
  List.length (list_ascii_of_string s) = String.length s.
Proof. induction s as [|c s IH]; simpl; [reflexivity | now rewrite IH]. Qed.

Lemma reverse_length (s : string) :
  String.length (JS.reverse s) = String.length s.
Proof.
  unfold JS.reverse. now rewrite length_of_list, length_rev, length_to_list.
Qed.

Lemma trimStart_done (s : string) :
  JS.stripOne JS.whiteSpace (JS.trimStart s) = None.
Proof.
  apply stripAll_done; [apply whiteSpace_nonempty | apply le_n].
Qed.

Lemma trimEnd_done (s : string) :
  JS.stripOne (map JS.reverse JS.whiteSpace) (JS.reverse (JS.trimEnd s))
  = None.
Proof.
  unfold JS.trimEnd. rewrite reverse_involutive.
  apply stripAll_done; [apply reversed_whiteSpace_nonempty|].
  rewrite reverse_length. apply le_n.
Qed.

Example trim_samples :
  JS.trim "  What is the thesis?  " = "What is the thesis?"
  /\ JS.trim (String "009" (String "010" " ")) = ""
  /\ JS.trim (JS.utf8 [194; 160; 120; 227; 128; 128]) = "x".
Proof. repeat split. Qed.

End Strings.

(** The guard of the upload handler accepts exactly those names. *)
Lemma pdf_guard_spec (fileName : string) :
  JS.endsWith (JS.toLowerCase fileName) ".pdf" = true <-> endsInPdf fileName.
Proof.
  rewrite endsWith_spec; split.
  - intros [stem H].
    assert (Hlen : 4 <= String.length fileName).
    { rewrite <- toLowerCase_length, H, length_append; simpl; lia. }
    destruct (split_at fileName (String.length fileName - 4))
      as (a & b & -> & Ha); [lia|].
    rewrite length_append in Ha, Hlen.
    assert (Hb : String.length b = 4) by lia.
    destruct b as [|c0 [|c1 [|c2 [|c3 [|]]]]]; try discriminate Hb.
    rewrite toLowerCase_append in H.
    assert (Hs : JS.toLowerCase (String c0 (String c1 (String c2 (String c3 ""))))
                 = ".pdf").
    { rewrite <- (substring_suffix (JS.toLowerCase a)
                    (JS.toLowerCase
                       (String c0 (String c1 (String c2 (String c3 "")))))).
      rewrite H.
      assert (Hl : String.length (JS.toLowerCase a) = String.length stem).
      { apply (f_equal String.length) in H.
        rewrite !length_append in H; simpl in H; lia. }
      rewrite Hl. apply (substring_suffix stem ".pdf"). }
    simpl in Hs. injection Hs as H0 H1 H2 H3.
    exists a, c1, c2, c3.
    apply lower_dot in H0; subst c0.
    repeat split; auto using lower_p, lower_d, lower_f.
  - intros (stem & p & d & f & -> & Hp & Hd & Hf).
    exists (JS.toLowerCase stem). rewrite toLowerCase_append. f_equal.
    destruct Hp, Hd, Hf; subst; reflexivity.
Qed.

(* ------------------------------------------------------------------ *)
(** ** The API client *)

Section ApiClient.

Variable b : Backend.

Ltac run_api :=
  unfold Api.uploadDocument, Api.getDocuments, Api.analyzeDocument,
    bind, fetch, await, throw, pushSent, uploadRequest, listRequest,
    analyzeRequest, JS.truthyString;
  cbn.

Ltac split_cases :=
  repeat match goal with
         | |- context [match ?x with _ => _ end] => destruct x; cbn
         end.

(** The responses with [response.ok] false are the [Failure] ones. *)
Lemma not_ok_iff {T} (response : Response T) :
  ok response = false <-> exists status json, response = Failure status json.
Proof.
  destruct response as [json | status json]; cbn; split.
  - discriminate.
  - intros (? & ? & H); discriminate H.
  - now exists status, json.
  - reflexivity.
Qed.

(** Each operation sends exactly its request and leaves the rest of the
    page alone; what it returns or throws depends on the page only through
    the requests sent before. *)
Lemma uploadDocument_run file title (p q : Page) :
  sent p = sent q ->
  Api.uploadDocument file title b q
  = (fst (Api.uploadDocument file title b p),
     pushSent (uploadRequest file title) q).
Proof.
  intros E; run_api; rewrite E.
  destruct title as [t|]; [destruct (t =? "")|]; cbn;
    split_cases; reflexivity.
Qed.

Lemma getDocuments_run (p q : Page) :
  sent p = sent q ->
  Api.getDocuments b q = (fst (Api.getDocuments b p), pushSent listRequest q).
Proof. intros E; run_api; rewrite E; split_cases; reflexivity. Qed.

Lemma analyzeDocument_run docId text (p q : Page) :
  sent p = sent q ->
  Api.analyzeDocument docId text b q
  = (fst (Api.analyzeDocument docId text b p),
     pushSent (analyzeRequest docId text) q).
Proof. intros E; run_api; rewrite E; split_cases; reflexivity. Qed.

(** A refusal whose body is JSON other than [null]: what is thrown is
    built from the [error] member of the body. *)
Lemma uploadDocument_refused file title (p : Page) status body :
  documents_POST b (map request (sent p)) (uploadRequest file title)
  = Returned (Failure status (Returned body)) ->
  body <> JS.JNull ->
  fst (Api.uploadDocument file title b p)
  = Threw (JS.newError
             (JS.or_else (errorField body) (JS.JStr "Upload failed"))).
Proof.
  intros H Hnull; revert H; run_api.
  destruct title as [t|]; [destruct (t =? "")|]; cbn;
    intros ->; destruct body; try reflexivity; contradiction.
Qed.

Lemma analyzeDocument_refused docId text (p : Page) status body :
  analyze_POST b (map request (sent p)) (analyzeRequest docId text)
  = Returned (Failure status (Returned body)) ->
  body <> JS.JNull ->
  fst (Api.analyzeDocument docId text b p)
  = Threw (JS.newError
             (JS.or_else (errorField body) (JS.JStr "Analysis failed"))).
Proof.
  intros H Hnull; revert H; run_api.
  intros ->; destruct body; try reflexivity; contradiction.
Qed.

(** The three cases of [error.error || fallback] inside [new Error]. *)
Lemma newError_string (s fallback : string) :
  s <> "" ->
  JS.newError (JS.or_else (Some (JS.JStr s)) (JS.JStr fallback))
  = JS.ErrorObject "Error" s.
Proof. intros H%String.eqb_neq. cbn. now rewrite H. Qed.

Lemma newError_truthy (v : JS.Json) (text fallback : string) :
  JS.truthy (Some v) = true ->
  JS.toString v = Some text ->
  JS.newError (JS.or_else (Some v) (JS.JStr fallback))
  = JS.ErrorObject "Error" text.
Proof.
  intros Ht Hs. unfold JS.or_else, JS.newError. now rewrite Ht, Hs.
Qed.

Lemma newError_unconvertible (v : JS.Json) (fallback : string) :
  JS.truthy (Some v) = true ->
  JS.toString v = None ->
  JS.newError (JS.or_else (Some v) (JS.JStr fallback))
  = JS.ErrorObject "TypeError" "Cannot convert object to primitive value".
Proof.
  intros Ht Hs. unfold JS.or_else, JS.newError. now rewrite Ht, Hs.
Qed.

Lemma newError_fallback (v : JS.Value) (fallback : string) :
  missingOrFalsy v ->
  JS.newError (JS.or_else v (JS.JStr fallback))
  = JS.ErrorObject "Error" fallback.
Proof. intros [-> | [-> | [-> | [-> | ->]]]]; reflexivity. Qed.

Lemma getDocuments_refused (p : Page) status body :
  documents_GET b (map request (sent p)) listRequest
  = Returned (Failure status body) ->
  fst (Api.getDocuments b p)
  = Threw (JS.ErrorObject "Error" "Failed to fetch documents").
Proof. run_api; intros ->; reflexivity. Qed.

(** A body that is not JSON makes [response.json()] reject, and the
    upload and analyze operations throw that error. *)
Lemma uploadDocument_unparsable file title (p : Page) status e :
  documents_POST b (map request (sent p)) (uploadRequest file title)
  = Returned (Failure status (Threw e)) ->
  fst (Api.uploadDocument file title b p) = Threw e.
Proof.
  run_api. destruct title as [t|]; [destruct (t =? "")|]; cbn;
    intros ->; reflexivity.
Qed.

Lemma analyzeDocument_unparsable docId text (p : Page) status e :
  analyze_POST b (map request (sent p)) (analyzeRequest docId text)
  = Returned (Failure status (Threw e)) ->
  fst (Api.analyzeDocument docId text b p) = Threw e.
Proof. run_api; intros ->; reflexivity. Qed.

End ApiClient.

(** C7, as stated, fails.  A refused upload whose body is not JSON throws
    the parser's error, and one whose body is [null] a TypeError; one whose
    [error] member is the empty string throws "Upload failed" although the
    member is present; one whose [error] member is an object with a
    [toString] member throws a TypeError. *)
Lemma C7_counterexample :
  fst (Api.uploadDocument notes_pdf None
         (refusing 500
            (Threw (JS.ErrorObject "SyntaxError"
                      "Unexpected token '<' is not valid JSON")))
         firstPage)
  = Threw (JS.ErrorObject "SyntaxError"
             "Unexpected token '<' is not valid JSON")
  /\ fst (Api.uploadDocument notes_pdf None
            (refusing 500 (Returned JS.JNull)) firstPage)
     = Threw (JS.ErrorObject "TypeError"
                "Cannot read properties of null (reading 'error')")
  /\ errorField (JS.JObj [("error", JS.JStr "")]) = Some (JS.JStr "")
  /\ fst (Api.uploadDocument notes_pdf None
            (refusing 400 (Returned (JS.JObj [("error", JS.JStr "")])))
            firstPage)
     = Threw (JS.ErrorObject "Error" "Upload failed")
  /\ fst (Api.uploadDocument notes_pdf None
            (refusing 400
               (Returned
                  (JS.JObj
                     [("error", JS.JObj [("toString", JS.JStr "x")])])))
            firstPage)
     = Threw (JS.ErrorObject "TypeError"
                "Cannot convert object to primitive value").
Proof. repeat split. Qed.

(** C7 (amended): for a response with a non-success status whose body
    parses to a JSON value other than [null], the upload operation throws
    an [Error] whose message is the [error] member of the body when that
    member is a non-empty string (and the string form of the member when
    it is another truthy value that converts to a string), and "Upload
    failed" when the member is missing, as it is in every body that is not
    an object, or falsy (the empty string, [null], [false], 0); the analyze
    operation does the same with "Analysis failed"; the list operation
    throws "Failed to fetch documents" whatever the body. *)
Theorem C7_failure_messages
    (b : Backend) (p : Page) (file : File) (title : option string)
    (docId : Z) (text : string)
    (status : Z) (body : JS.Json) (listBody : Outcome JS.Json) :
  let history := map request (sent p) in
  (documents_POST b history (uploadRequest file title)
   = Returned (Failure status (Returned body)) ->
   body <> JS.JNull ->
   (forall s,
       errorField body = Some (JS.JStr s) -> s <> "" ->
       fst (Api.uploadDocument file title b p)
       = Threw (JS.ErrorObject "Error" s))
   /\ (forall v printed,
         errorField body = Some v -> JS.truthy (Some v) = true ->
         JS.toString v = Some printed ->
         fst (Api.uploadDocument file title b p)
         = Threw (JS.ErrorObject "Error" printed))
   /\ (missingOrFalsy (errorField body) ->
       fst (Api.uploadDocument file title b p)
       = Threw (JS.ErrorObject "Error" "Upload failed")))
  /\ (analyze_POST b history (analyzeRequest docId text)
      = Returned (Failure status (Returned body)) ->
      body <> JS.JNull ->
      (forall s,
          errorField body = Some (JS.JStr s) -> s <> "" ->
          fst (Api.analyzeDocument docId text b p)
          = Threw (JS.ErrorObject "Error" s))
      /\ (forall v printed,
            errorField body = Some v -> JS.truthy (Some v) = true ->
            JS.toString v = Some printed ->
            fst (Api.analyzeDocument docId text b p)
            = Threw (JS.ErrorObject "Error" printed))
      /\ (missingOrFalsy (errorField body) ->
          fst (Api.analyzeDocument docId text b p)
          = Threw (JS.ErrorObject "Error" "Analysis failed")))
  /\ (documents_GET b history listRequest
      = Returned (Failure status listBody) ->
      fst (Api.getDocuments b p)
      = Threw (JS.ErrorObject "Error" "Failed to fetch documents")).
Proof.
  cbv zeta; split; [|split].
  - intros H Hnull. rewrite (uploadDocument_refused b _ _ _ _ _ H Hnull).
    repeat split.
    + intros s -> Hs. now rewrite newError_string.
    + intros v printed -> Ht Hp. now rewrite (newError_truthy v printed).
    + intros Hf. now rewrite newError_fallback.
  - intros H Hnull. rewrite (analyzeDocument_refused b _ _ _ _ _ H Hnull).
    repeat split.
    + intros s -> Hs. now rewrite newError_string.
    + intros v printed -> Ht Hp. now rewrite (newError_truthy v printed).
    + intros Hf. now rewrite newError_fallback.
  - apply getDocuments_refused.
Qed.

Lemma noFileBody_not_null : JS.JObj noFileBody <> JS.JNull.
Proof. discriminate. Qed.

Lemma no_file_provided_not_empty : "No file provided" <> "".
Proof. discriminate. Qed.

Lemma empty_object_not_null : JS.JObj [] <> JS.JNull.
Proof. discriminate. Qed.

Lemma C7_failure_messages_witness :
  fst (Api.uploadDocument notes_pdf None noFileBackend firstPage)
  = Threw (JS.ErrorObject "Error" "No file provided")
  /\ fst (Api.analyzeDocument 7 "What is the thesis?" noFileBackend firstPage)
     = Threw (JS.ErrorObject "Error" "No file provided")
  /\ fst (Api.getDocuments noFileBackend firstPage)
     = Threw (JS.ErrorObject "Error" "Failed to fetch documents")
  /\ fst (Api.uploadDocument notes_pdf None
            (refusing 400 (Returned (JS.JObj []))) firstPage)
     = Threw (JS.ErrorObject "Error" "Upload failed")
  /\ fst (Api.analyzeDocument 7 "What is the thesis?"
            (refusing 400 (Returned (JS.JObj []))) firstPage)
     = Threw (JS.ErrorObject "Error" "Analysis failed").
Proof.
  destruct (C7_failure_messages noFileBackend firstPage notes_pdf None 7
              "What is the thesis?" 400 (JS.JObj noFileBody)
              (Returned (JS.JObj noFileBody)))
    as (Hu & Ha & Hl).
  destruct (C7_failure_messages (refusing 400 (Returned (JS.JObj [])))
              firstPage notes_pdf None 7 "What is the thesis?" 400
              (JS.JObj []) (Returned (JS.JObj [])))
    as (Hu' & Ha' & _).
  split; [|split; [|split; [|split]]].
  - apply (proj1 (Hu eq_refl noFileBody_not_null) "No file provided");
      [reflexivity | exact no_file_provided_not_empty].
  - apply (proj1 (Ha eq_refl noFileBody_not_null) "No file provided");
      [reflexivity | exact no_file_provided_not_empty].
  - apply Hl. reflexivity.
  - apply (proj2 (proj2 (Hu' eq_refl empty_object_not_null))).
    left. reflexivity.
  - apply (proj2 (proj2 (Ha' eq_refl empty_object_not_null))).
    left. reflexivity.
Defined.

(** The string conversions at work: integers beyond 2^53 print as the
    double they denote, from 10^21 on in exponent notation, and an object
    with a [toString] member of its own does not convert. *)
Example numberToString_samples :
  map JS.numberToString
    [0; -5; 9007199254740993; 2 ^ 56; 2 ^ 60; 10 ^ 21; 10 ^ 23; 2 ^ 70;
     2 ^ 1024 - 2 ^ 970 - 1; 10 ^ 400]%Z
  = ["0"; "-5"; "9007199254740992"; "72057594037927940";
     "1152921504606847000"; "1e+21"; "1e+23"; "1.1805916207174113e+21";
     "1.7976931348623157e+308"; "Infinity"].
Proof. vm_compute. reflexivity. Qed.

Example toString_samples :
  JS.toString
    (JS.JArr [JS.JNum (-5); JS.JNull; JS.JStr "a"; JS.JArr [];
              JS.JObj [("valueOf", JS.JNum 1)]; JS.JFrac "1.5"])
  = Some "-5,,a,,[object Object],1.5"
  /\ JS.toString (JS.JObj [("toString", JS.JStr "x")]) = None
  /\ JS.toString (JS.JArr [JS.JObj [("toString", JS.JNull)]]) = None.
Proof. repeat split. Qed.

(* ------------------------------------------------------------------ *)
(** ** The upload handler *)

Ltac open_handler :=
  unfold App.after, App.dispatch, pick, App.handleUpload, App.handleAnalyze;
  cbn [App.files].

Ltac run :=
  cbv -[Api.uploadDocument Api.analyzeDocument JS.trim JS.endsWith
        JS.toLowerCase String.append String.eqb Z.eqb].

Section UploadHandler.

Variable b : Backend.

Lemma guard_rejects (file : File) :
  ~ endsInPdf (name file) ->
  JS.endsWith (JS.toLowerCase (name file)) ".pdf" = false.
Proof.
  intros H. destruct (JS.endsWith _ _) eqn:E; [|reflexivity].
  now apply pdf_guard_spec in E.
Qed.

(** A rejected pick changes the error message and nothing else on the
    page. *)
Lemma handleUpload_rejected (p : Page) (file : File) (others : list File) :
  ~ endsInPdf (name file) ->
  App.handleUpload {| App.files := Some (file :: others) |} b p
  = App.setError (Some "Please select a PDF file") b p.
Proof. intros H%guard_rejects. open_handler. now rewrite H. Qed.

(** C1: a file whose name does not end in [.pdf] (case ignored) makes the
    upload handler set the error "Please select a PDF file" and return
    without sending any request; the active document is left as it was. *)
Theorem C1_non_pdf_rejected_without_request
    (p : Page) (file : File) (others : list File) :
  ~ endsInPdf (name file) ->
  let run := App.handleUpload {| App.files := Some (file :: others) |} b p in
  fst run = Returned tt
  /\ error (state (snd run)) = Some "Please select a PDF file"
  /\ sent (snd run) = sent p
  /\ activeDocId (state (snd run)) = activeDocId (state p).
Proof.
  intros H. cbv zeta. rewrite (handleUpload_rejected p file others H).
  repeat split.
Qed.

(** C3: when the upload operation returns a response, the handler stores
    the response id as active document id, the response title as document
    title and the backend origin followed by the response file_url as
    preview URL, and clears the result, the highlights and the question. *)
Theorem C3_upload_success_sets_document
    (p : Page) (file : File) (others : list File) (r : UploadResponse.t) :
  endsInPdf (name file) ->
  fst (Api.uploadDocument file None b p) = Returned r ->
  let run := App.handleUpload {| App.files := Some (file :: others) |} b p in
  fst run = Returned tt
  /\ activeDocId (state (snd run)) = Some (UploadResponse.id r)
  /\ documentTitle (state (snd run)) = UploadResponse.title r
  /\ currentFileUrl (state (snd run))
     = Some ("http://127.0.0.1:8000" ++ UploadResponse.file_url r)
  /\ result (state (snd run)) = None
  /\ highlights (state (snd run)) = []
  /\ question (state (snd run)) = "".
Proof.
  intros H%pdf_guard_spec Hr. open_handler. rewrite H. run.
  rewrite (uploadDocument_run b file None p) by reflexivity.
  rewrite Hr. run. repeat split.
Qed.


(** An attempt that passes the filename check empties the file input,
    whether the request succeeds or not. *)
Lemma upload_attempt_resets_file_input
    (p : Page) (file : File) (others : list File) (path : string) :
  endsInPdf (name file) ->
  fileInputRef p = Some {| value := path |} ->
  fileInputRef
    (snd (App.handleUpload {| App.files := Some (file :: others) |} b p))
  = Some {| value := "" |}.
Proof.
  intros H%pdf_guard_spec Hp. destruct p as [s input ts log].
  cbn in Hp; subst input. open_handler. rewrite H. run.
  rewrite (uploadDocument_run b file None
             {| state := s; fileInputRef := Some {| value := path |};
                timers := ts; sent := log |}) by reflexivity.
  destruct (fst (Api.uploadDocument file None b _)); reflexivity.
Qed.

(** A pick rejected by the filename check leaves the file input alone. *)
Lemma rejected_pick_keeps_file_input
    (p : Page) (file : File) (others : list File) :
  ~ endsInPdf (name file) ->
  fileInputRef
    (snd (App.handleUpload {| App.files := Some (file :: others) |} b p))
  = fileInputRef p.
Proof.
  intros H. now rewrite (handleUpload_rejected p file others H).
Qed.

(** The handler itself never throws. *)
Lemma handleUpload_returns (p : Page) (event : App.ChangeEvent) :
  fst (App.handleUpload event b p) = Returned tt.
Proof.
  destruct event as [[[|file others]|]]; try reflexivity.
  open_handler.
  destruct (JS.endsWith (JS.toLowerCase (name file)) ".pdf");
    [|reflexivity].
  run. rewrite (uploadDocument_run b file None p) by reflexivity.
  destruct (fst (Api.uploadDocument file None b p)); reflexivity.
Qed.

End UploadHandler.

Lemma notes_txt_not_pdf : ~ endsInPdf (name notes_txt).
Proof. intros H%pdf_guard_spec. discriminate H. Qed.

Lemma notes_pdf_is_pdf : endsInPdf (name notes_pdf).
Proof. apply pdf_guard_spec. reflexivity. Qed.

Lemma C1_non_pdf_rejected_without_request_witness :
  ~ endsInPdf (name notes_txt)
  /\ (let run :=
        App.handleUpload {| App.files := Some [notes_txt] |} offline firstPage
      in
      fst run = Returned tt
      /\ error (state (snd run)) = Some "Please select a PDF file"
      /\ sent (snd run) = sent firstPage
      /\ activeDocId (state (snd run)) = activeDocId (state firstPage)).
Proof.
  exact (conj notes_txt_not_pdf
           (C1_non_pdf_rejected_without_request offline firstPage notes_txt []
              notes_txt_not_pdf)).
Defined.

Lemma C3_upload_success_sets_document_witness :
  endsInPdf (name notes_pdf)
  /\ fst (Api.uploadDocument notes_pdf None notesBackend firstPage)
     = Returned notesUploaded
  /\ (let run :=
        App.handleUpload {| App.files := Some [notes_pdf] |}
          notesBackend firstPage in
      fst run = Returned tt
      /\ activeDocId (state (snd run)) = Some (UploadResponse.id notesUploaded)
      /\ documentTitle (state (snd run)) = UploadResponse.title notesUploaded
      /\ currentFileUrl (state (snd run))
         = Some ("http://127.0.0.1:8000"
                 ++ UploadResponse.file_url notesUploaded)
      /\ result (state (snd run)) = None
      /\ highlights (state (snd run)) = []
      /\ question (state (snd run)) = "").
Proof.
  exact (conj notes_pdf_is_pdf
           (conj eq_refl
              (C3_upload_success_sets_document
                 notesBackend firstPage notes_pdf []
                 notesUploaded notes_pdf_is_pdf eq_refl))).
Defined.

(** The scenarios of the specification: [notes.txt] is refused and no
    document becomes active; [notes.pdf], answered with id 7, becomes the
    active document and is previewed from the backend origin. *)
Example upload_notes_txt :
  let p := snd (App.handleUpload {| App.files := Some [notes_txt] |}
                  offline firstPage) in
  error (state p) = Some "Please select a PDF file"
  /\ activeDocId (state p) = None
  /\ sent p = [].
Proof. repeat split. Qed.

Example upload_notes_pdf :
  let p := snd (App.handleUpload {| App.files := Some [notes_pdf] |}
                  notesBackend firstPage) in
  activeDocId (state p) = Some 7%Z
  /\ currentFileUrl (state p) = Some "http://127.0.0.1:8000/media/notes.pdf"
  /\ timers p = [{| callback := hideUploadSuccess; delay := 5000 |}].
Proof. repeat split. Qed.



(** C9: the file input is to be emptied after every upload attempt, the
    ones refused by the filename check included.  The handler does not do
    so for those: after [notes.txt] is picked and refused, the file input
    still holds it. *)
Theorem C9_rejected_pick_leaves_file_input_filled :
  error (state (snd (App.handleUpload {| App.files := Some [notes_txt] |}
                       offline txtPickedPage)))
  = Some "Please select a PDF file"
  /\ fileInputRef (snd (App.handleUpload {| App.files := Some [notes_txt] |}
                          offline txtPickedPage))
     = Some {| value := "C:\fakepath\notes.txt" |}.
Proof. split; reflexivity. Qed.

(* ------------------------------------------------------------------ *)
(** ** The analyze handler *)

Section AnalyzeHandler.

Variable b : Backend.

Lemma bind_getState {A} (k : AppState -> Async A) (p : Page) :
  bind App.getState k b p = k (state p) b p.
Proof. reflexivity. Qed.

Ltac open_analyze :=
  unfold App.handleAnalyze; rewrite !bind_getState; cbv beta zeta.

(** The ways through the guards of the handler. *)
Lemma handleAnalyze_no_document (p : Page) :
  JS.truthyNumber (activeDocId (state p)) = false ->
  App.handleAnalyze b p
  = App.setError (Some "Please upload a document first") b p.
Proof.
  intros H. open_analyze. now rewrite H.
Qed.

Lemma handleAnalyze_no_question (p : Page) :
  JS.truthyNumber (activeDocId (state p)) = true ->
  JS.trim (question (state p)) = "" ->
  App.handleAnalyze b p = App.setError (Some "Please enter a question") b p.
Proof.
  intros H Hq. open_analyze. now rewrite H, Hq.
Qed.

Lemma truthyNumber_spec (n : option Z) :
  JS.truthyNumber n = false <-> n = None \/ n = Some 0%Z.
Proof.
  destruct n as [z|]; cbn; [|tauto].
  destruct (Z.eqb_spec z 0); cbn; split; intros H; try discriminate; auto.
  - subst; auto.
  - destruct H as [H|H]; [discriminate | congruence].
Qed.

(** C2, as stated, fails: with 0 stored as active document id and a blank
    question, the handler asks for a document, not for a question. *)
Lemma C2_counterexample :
  activeDocId (state zeroDocPage) = Some 0%Z
  /\ JS.trim (question (state zeroDocPage)) = ""
  /\ error (state (snd (App.handleAnalyze offline zeroDocPage)))
     = Some "Please upload a document first"
  /\ error (state (snd (App.handleAnalyze offline zeroDocPage)))
     <> Some "Please enter a question".
Proof. repeat split. discriminate. Qed.

(** C2 (amended): if the active document id is null or 0 the analyze
    handler sets the error "Please upload a document first" and sends
    nothing; otherwise, if the question is empty once trimmed, it sets the
    error "Please enter a question" and sends nothing; otherwise it sends
    exactly one request, the analyze request for that id and question.  In
    every case the handler returns. *)
Theorem C2_analyze_preconditions (p : Page) :
  let run := App.handleAnalyze b p in
  let q := question (state p) in
  fst run = Returned tt
  /\ match activeDocId (state p) with
     | None | Some 0%Z =>
         error (state (snd run)) = Some "Please upload a document first"
         /\ sent (snd run) = sent p
     | Some docId =>
         if JS.trim q =? "" then
           error (state (snd run)) = Some "Please enter a question"
           /\ sent (snd run) = sent p
         else
           map request (sent (snd run))
           = analyzeRequest docId q :: map request (sent p)
     end.
Proof.
  cbv zeta.
  destruct (JS.truthyNumber (activeDocId (state p))) eqn:Hd.
  - destruct (activeDocId (state p)) as [docId|] eqn:Ha; [|discriminate Hd].
    assert (Hz : docId <> 0%Z).
    { intros ->. discriminate Hd. }
    replace (match docId with 0%Z => _ | _ => _ end)
      with (if JS.trim (question (state p)) =? ""
            then error (state (snd (App.handleAnalyze b p)))
                 = Some "Please enter a question"
                 /\ sent (snd (App.handleAnalyze b p)) = sent p
            else map request (sent (snd (App.handleAnalyze b p)))
                 = analyzeRequest docId (question (state p))
                   :: map request (sent p))
      by (destruct docId; [contradiction | reflexivity | reflexivity]).
    destruct (JS.trim (question (state p)) =? "") eqn:Hq.
    + apply String.eqb_eq in Hq.
      rewrite handleAnalyze_no_question; [repeat split | | assumption].
      now rewrite Ha.
    + open_analyze. rewrite Ha, Hd. unfold JS.truthyString. rewrite Hq.
      run. rewrite (analyzeDocument_run b docId _ p) by reflexivity.
      destruct (fst (Api.analyzeDocument docId _ b p)); split; reflexivity.
  - rewrite handleAnalyze_no_document by assumption.
    apply truthyNumber_spec in Hd as [-> | ->]; repeat split.
Qed.

(** C5: when the analyze handler passes its two checks, the request is
    sent with the result, the highlights and the error message already
    cleared; if the analyze operation then throws, the error message is set
    to the message of what was thrown (or "Analysis failed") and the result
    and the highlights stay cleared; if it returns, its response is the
    result. *)
Theorem C5_analyze_clears_before_request (p : Page) (docId : Z) :
  activeDocId (state p) = Some docId ->
  docId <> 0%Z ->
  JS.trim (question (state p)) <> "" ->
  let q := question (state p) in
  let run := App.handleAnalyze b p in
  (exists s,
      sent (snd run) = s :: sent p
      /\ request s = analyzeRequest docId q
      /\ result (stateWhenSent s) = None
      /\ highlights (stateWhenSent s) = []
      /\ error (stateWhenSent s) = None)
  /\ match fst (Api.analyzeDocument docId q b p) with
     | Threw e =>
         error (state (snd run)) = Some (App.messageOf e "Analysis failed")
         /\ result (state (snd run)) = None
         /\ highlights (state (snd run)) = []
     | Returned response =>
         error (state (snd run)) = None
         /\ result (state (snd run)) = Some response
         /\ highlights (state (snd run)) = AnalyzeResponse.claims response
     end.
Proof.
  intros Ha Hz Hq. cbv zeta.
  destruct (fst (Api.analyzeDocument docId (question (state p)) b p))
    as [response|e] eqn:E.
  all: open_analyze; rewrite Ha.
  all: apply Z.eqb_neq in Hz; apply String.eqb_neq in Hq.
  all: unfold JS.truthyNumber, JS.truthyString; rewrite Hz, Hq.
  all: run.
  all: rewrite (analyzeDocument_run b docId (question (state p)) p)
         by reflexivity.
  all: rewrite E; run.
  all: split; [eexists; split; [reflexivity | repeat split] | repeat split].
Qed.

(** The handler itself never throws. *)
Lemma handleAnalyze_returns (p : Page) :
  fst (App.handleAnalyze b p) = Returned tt.
Proof.
  open_analyze.
  destruct (JS.truthyNumber (activeDocId (state p))); [|reflexivity].
  destruct (JS.truthyString (JS.trim (question (state p)))); [|reflexivity].
  run. rewrite (analyzeDocument_run b _ _ p) by reflexivity.
  destruct (fst (Api.analyzeDocument _ _ b p)); reflexivity.
Qed.


(** A click on Analyze never changes which document is active. *)
Lemma handleAnalyze_keeps_document (p : Page) :
  activeDocId (state (snd (App.handleAnalyze b p))) = activeDocId (state p).
Proof.
  open_analyze.
  destruct (JS.truthyNumber (activeDocId (state p))); [|reflexivity].
  destruct (JS.truthyString (JS.trim (question (state p)))); [|reflexivity].
  run. rewrite (analyzeDocument_run b _ _ p) by reflexivity.
  destruct (fst (Api.analyzeDocument _ _ b p)); reflexivity.
Qed.

End AnalyzeHandler.

Lemma seven_not_zero : 7%Z <> 0%Z.
Proof. discriminate. Qed.

Lemma thesis_question_not_blank :
  JS.trim (question (state notesPage)) <> "".
Proof. discriminate. Qed.

Lemma C5_analyze_clears_before_request_witness :
  activeDocId (state notesPage) = Some 7%Z
  /\ 7%Z <> 0%Z
  /\ JS.trim (question (state notesPage)) <> ""
  /\ (let q := question (state notesPage) in
      let run := App.handleAnalyze offline notesPage in
      (exists s,
          sent (snd run) = s :: sent notesPage
          /\ request s = analyzeRequest 7 q
          /\ result (stateWhenSent s) = None
          /\ highlights (stateWhenSent s) = []
          /\ error (stateWhenSent s) = None)
      /\ match fst (Api.analyzeDocument 7 q offline notesPage) with
         | Threw e =>
             error (state (snd run))
             = Some (App.messageOf e "Analysis failed")
             /\ result (state (snd run)) = None
             /\ highlights (state (snd run)) = []
         | Returned response =>
             error (state (snd run)) = None
             /\ result (state (snd run)) = Some response
             /\ highlights (state (snd run))
                = AnalyzeResponse.claims response
         end).
Proof.
  exact (conj eq_refl
           (conj seven_not_zero
              (conj thesis_question_not_blank
                 (C5_analyze_clears_before_request offline notesPage 7
                    eq_refl seven_not_zero thesis_question_not_blank)))).
Defined.

(** The scenarios of the specification for the analyze flow: without an
    active document nothing is sent; with document 7 active the question
    is sent and the claim of the answer is shown in green with a check
    mark. *)
Example analyze_without_document :
  let p := snd (App.handleAnalyze offline firstPage) in
  error (state p) = Some "Please upload a document first" /\ sent p = [].
Proof. split; reflexivity. Qed.

Example analyze_thesis :
  let p := snd (App.handleAnalyze notesBackend notesPage) in
  result (state p) = Some thesisAnalyzed
  /\ map (fun c => (App.getStatusColor (Claim.status c),
                    App.getStatusIcon (Claim.status c)))
         (highlights (state p))
     = [("bg-green-100 text-green-800 border-green-300", "✓")]
  /\ map (fun s => docIdSent (request s)) (sent p) = [Some 7%Z].
Proof. repeat split. Qed.

(* ------------------------------------------------------------------ *)
(** ** Sequences of events *)

Section Sessions.

Variable b : Backend.

(** Only a file pick can change which document is active. *)
Lemma after_keeps_document (ev : App.Event) (p : Page) :
  isFileChange ev = false ->
  activeDocId (state (App.after b ev p)) = activeDocId (state p).
Proof.
  destruct ev as [e | text | | ]; intros H; try discriminate H.
  - reflexivity.
  - apply handleAnalyze_keeps_document.
  - unfold App.after, App.dispatch, bind, App.popTimer.
    destruct (timers p) as [|[[] ms] rest]; reflexivity.
Qed.

Lemma afterAll_keeps_document (evs : list App.Event) (p : Page) :
  noFileChange evs = true ->
  activeDocId (state (App.afterAll b evs p)) = activeDocId (state p).
Proof.
  revert p; induction evs as [|ev evs IH]; intros p H; [reflexivity|].
  cbn in H. apply andb_true_iff in H as [Hev Hevs].
  apply negb_true_iff in Hev.
  change (App.afterAll b (ev :: evs) p)
    with (App.afterAll b evs (App.after b ev p)).
  rewrite (IH _ Hevs). now apply after_keeps_document.
Qed.

(** While the active document id is null or 0, no event other than a file
    pick sends anything. *)
Lemma after_blocked (ev : App.Event) (p : Page) :
  isFileChange ev = false ->
  JS.truthyNumber (activeDocId (state p)) = false ->
  sent (App.after b ev p) = sent p.
Proof.
  destruct ev as [e | text | | ]; intros H Hd; try discriminate H.
  - reflexivity.
  - unfold App.after, App.dispatch.
    now rewrite handleAnalyze_no_document.
  - unfold App.after, App.dispatch, bind, App.popTimer.
    destruct (timers p) as [|[[] ms] rest]; reflexivity.
Qed.

Lemma afterAll_blocked (evs : list App.Event) (p : Page) :
  noFileChange evs = true ->
  JS.truthyNumber (activeDocId (state p)) = false ->
  sent (App.afterAll b evs p) = sent p.
Proof.
  revert p; induction evs as [|ev evs IH]; intros p H Hd; [reflexivity|].
  cbn in H. apply andb_true_iff in H as [Hev Hevs].
  apply negb_true_iff in Hev.
  change (App.afterAll b (ev :: evs) p)
    with (App.afterAll b evs (App.after b ev p)).
  rewrite (IH _ Hevs).
  - now apply after_blocked.
  - now rewrite after_keeps_document.
Qed.

(** No event makes its handler throw, so [after] loses nothing. *)
Lemma dispatch_returns (ev : App.Event) (p : Page) :
  fst (App.dispatch ev b p) = Returned tt.
Proof.
  destruct ev as [e | text | | ].
  - apply handleUpload_returns.
  - reflexivity.
  - apply handleAnalyze_returns.
  - unfold App.dispatch, bind, App.popTimer.
    destruct (timers p) as [|[[] ms] rest]; reflexivity.
Qed.

(** The document made active by an upload that returns. *)
Lemma upload_activates (p : Page) (file : File) (others : list File)
    (r : UploadResponse.t) :
  endsInPdf (name file) ->
  fst (Api.uploadDocument file None b p) = Returned r ->
  activeDocId (state (App.after b (pick file others) p))
  = Some (UploadResponse.id r).
Proof.
  intros H%pdf_guard_spec Hr. open_handler. rewrite H. run.
  rewrite (uploadDocument_run b file None p) by reflexivity.
  rewrite Hr. reflexivity.
Qed.


(** C10: if the upload operation returns a response whose id is 0, then 0
    is stored as active document id and, whatever happens afterwards short
    of another file pick, nothing more is sent, and a click on Analyze sets
    the error "Please upload a document first" and sends nothing. *)
Theorem C10_zero_id_blocks_analysis
    (p : Page) (file : File) (others : list File) (r : UploadResponse.t)
    (evs : list App.Event) :
  endsInPdf (name file) ->
  fst (Api.uploadDocument file None b p) = Returned r ->
  UploadResponse.id r = 0%Z ->
  noFileChange evs = true ->
  let p0 := App.after b (pick file others) p in
  let p1 := App.afterAll b evs p0 in
  let run := App.handleAnalyze b p1 in
  activeDocId (state p0) = Some 0%Z
  /\ sent p1 = sent p0
  /\ fst run = Returned tt
  /\ error (state (snd run)) = Some "Please upload a document first"
  /\ sent (snd run) = sent p1.
Proof.
  intros Hpdf Hr Hid Hevs p0 p1 run.
  assert (H0 : activeDocId (state p0) = Some 0%Z).
  { unfold p0. rewrite (upload_activates p file others r) by assumption.
    now rewrite Hid. }
  assert (H1 : JS.truthyNumber (activeDocId (state p1)) = false).
  { unfold p1. rewrite afterAll_keeps_document by assumption.
    now rewrite H0. }
  split; [exact H0|].
  split; [apply afterAll_blocked; [assumption | now rewrite H0]|].
  unfold run. rewrite handleAnalyze_no_document by assumption.
  repeat split.
Qed.

End Sessions.


Lemma C10_zero_id_blocks_analysis_witness :
  endsInPdf (name notes_pdf)
  /\ fst (Api.uploadDocument notes_pdf None zeroBackend firstPage)
     = Returned zeroUploaded
  /\ UploadResponse.id zeroUploaded = 0%Z
  /\ noFileChange typeThenClick = true
  /\ (let p0 := App.after zeroBackend (pick notes_pdf []) firstPage in
      let p1 := App.afterAll zeroBackend typeThenClick p0 in
      let run := App.handleAnalyze zeroBackend p1 in
      activeDocId (state p0) = Some 0%Z
      /\ sent p1 = sent p0
      /\ fst run = Returned tt
      /\ error (state (snd run)) = Some "Please upload a document first"
      /\ sent (snd run) = sent p1).
Proof.
  exact (conj notes_pdf_is_pdf
           (conj eq_refl
              (conj eq_refl
                 (conj eq_refl
                    (C10_zero_id_blocks_analysis zeroBackend firstPage
                       notes_pdf [] zeroUploaded typeThenClick
                       notes_pdf_is_pdf eq_refl eq_refl eq_refl))))).
Defined.

(* ------------------------------------------------------------------ *)
(** ** Presentation of a claim status *)

(** C6: the colour classes and the icon of a status are functions of the
    status string alone: green and a check mark for VERIFIED, yellow and a
    warning sign for LIKELY, red and a cross for UNVERIFIED, grey and a
    question mark for every other string. *)
Theorem C6_status_presentation :
  (App.getStatusColor "VERIFIED", App.getStatusIcon "VERIFIED")
  = ("bg-green-100 text-green-800 border-green-300", "✓")
  /\ (App.getStatusColor "LIKELY", App.getStatusIcon "LIKELY")
     = ("bg-yellow-100 text-yellow-800 border-yellow-300", "⚠")
  /\ (App.getStatusColor "UNVERIFIED", App.getStatusIcon "UNVERIFIED")
     = ("bg-red-100 text-red-800 border-red-300", "✗")
  /\ (forall status : string,
         status <> "VERIFIED" ->
         status <> "LIKELY" ->
         status <> "UNVERIFIED" ->
         (App.getStatusColor status, App.getStatusIcon status)
         = ("bg-gray-100 text-gray-800 border-gray-300", "?")).
Proof.
  repeat split.
  intros status Hv Hl Hu.
  unfold App.getStatusColor, App.getStatusIcon.
  apply String.eqb_neq in Hv, Hl, Hu.
  now rewrite Hv, Hl, Hu.
Qed.

Lemma C6_status_presentation_witness :
  "PENDING" <> "VERIFIED"
  /\ "PENDING" <> "LIKELY"
  /\ "PENDING" <> "UNVERIFIED"
  /\ (App.getStatusColor "PENDING", App.getStatusIcon "PENDING")
     = ("bg-gray-100 text-gray-800 border-gray-300", "?").
Proof.
  assert (Hv : "PENDING" <> "VERIFIED") by discriminate.
  assert (Hl : "PENDING" <> "LIKELY") by discriminate.
  assert (Hu : "PENDING" <> "UNVERIFIED") by discriminate.
  exact (conj Hv
           (conj Hl
              (conj Hu
                 (proj2 (proj2 (proj2 C6_status_presentation))
                    "PENDING" Hv Hl Hu)))).
Defined.

(* ------------------------------------------------------------------ *)
(** ** Net effect of the handlers *)

Section NetEffect.

Variable b : Backend.

Lemma handleUpload_no_file (p : Page) (event : App.ChangeEvent) :
  App.files event = None \/ App.files event = Some [] ->
  App.handleUpload event b p = (Returned tt, p).
Proof.
  destruct event as [fs]; cbn; intros [-> | ->]; reflexivity.
Qed.

Lemma handleUpload_rejected_page
    (p : Page) (file : File) (others : list File) :
  ~ endsInPdf (name file) ->
  App.handleUpload {| App.files := Some (file :: others) |} b p
  = (Returned tt,
     withState (errorState "Please select a PDF file" (state p)) p).
Proof. intros H. now rewrite (handleUpload_rejected b p file others H). Qed.

Lemma handleUpload_returned
    (p : Page) (file : File) (others : list File) (r : UploadResponse.t) :
  endsInPdf (name file) ->
  fst (Api.uploadDocument file None b p) = Returned r ->
  App.handleUpload {| App.files := Some (file :: others) |} b p
  = (Returned tt, uploadedPage file r p).
Proof.
  intros H%pdf_guard_spec Hr. open_handler. rewrite H. run.
  rewrite (uploadDocument_run b file None p) by reflexivity.
  rewrite Hr. reflexivity.
Qed.

Lemma handleUpload_threw
    (p : Page) (file : File) (others : list File) (e : JS.Thrown) :
  endsInPdf (name file) ->
  fst (Api.uploadDocument file None b p) = Threw e ->
  App.handleUpload {| App.files := Some (file :: others) |} b p
  = (Returned tt, uploadFailedPage file e p).
Proof.
  intros H%pdf_guard_spec He. open_handler. rewrite H. run.
  rewrite (uploadDocument_run b file None p) by reflexivity.
  rewrite He. reflexivity.
Qed.

Lemma handleAnalyze_guards (p : Page) (docId : Z) :
  activeDocId (state p) = Some docId ->
  docId <> 0%Z ->
  JS.trim (question (state p)) <> "" ->
  App.handleAnalyze b p
  = (App.setIsAnalyzing true ;;
     App.setError None ;;
     App.setResult None ;;
     App.setHighlights [] ;;
     try_catch_finally
       (response <- Api.analyzeDocument docId (question (state p)) ;;
        App.setResult (Some response) ;;
        App.setHighlights (AnalyzeResponse.claims response))
       (fun err => App.setError (Some (App.messageOf err "Analysis failed")))
       (App.setIsAnalyzing false))%async b p.
Proof.
  intros Ha Hz%Z.eqb_neq Hq%String.eqb_neq.
  unfold App.handleAnalyze. rewrite (bind_getState b). cbv beta zeta.
  rewrite Ha. unfold JS.truthyNumber, JS.truthyString. rewrite Hz, Hq.
  reflexivity.
Qed.

Lemma handleAnalyze_returned (p : Page) (docId : Z) (a : AnalyzeResponse.t) :
  activeDocId (state p) = Some docId ->
  docId <> 0%Z ->
  JS.trim (question (state p)) <> "" ->
  fst (Api.analyzeDocument docId (question (state p)) b p) = Returned a ->
  App.handleAnalyze b p = (Returned tt, analyzedPage docId a p).
Proof.
  intros Ha Hz Hq Hr. rewrite (handleAnalyze_guards p docId Ha Hz Hq). run.
  rewrite (analyzeDocument_run b docId (question (state p)) p) by reflexivity.
  rewrite Hr. reflexivity.
Qed.

Lemma handleAnalyze_threw (p : Page) (docId : Z) (e : JS.Thrown) :
  activeDocId (state p) = Some docId ->
  docId <> 0%Z ->
  JS.trim (question (state p)) <> "" ->
  fst (Api.analyzeDocument docId (question (state p)) b p) = Threw e ->
  App.handleAnalyze b p = (Returned tt, analyzeFailedPage docId e p).
Proof.
  intros Ha Hz Hq He. rewrite (handleAnalyze_guards p docId Ha Hz Hq). run.
  rewrite (analyzeDocument_run b docId (question (state p)) p) by reflexivity.
  rewrite He. reflexivity.
Qed.

(** The five things a file pick can come to, and the four a click on
    Analyze can. *)
Lemma handleUpload_cases (p : Page) (event : App.ChangeEvent) :
  snd (App.handleUpload event b p) = p
  \/ snd (App.handleUpload event b p)
     = withState (errorState "Please select a PDF file" (state p)) p
  \/ (exists file r,
        fst (Api.uploadDocument file None b p) = Returned r
        /\ snd (App.handleUpload event b p) = uploadedPage file r p)
  \/ (exists file e,
        snd (App.handleUpload event b p) = uploadFailedPage file e p).
Proof.
  destruct event as [[[|file others]|]].
  1, 3: left; rewrite handleUpload_no_file; cbn; auto.
  destruct (JS.endsWith (JS.toLowerCase (name file)) ".pdf") eqn:G.
  - apply pdf_guard_spec in G.
    destruct (fst (Api.uploadDocument file None b p)) as [r|e] eqn:E.
    + right; right; left. exists file, r.
      now rewrite (handleUpload_returned p file others r G E).
    + right; right; right. exists file, e.
      now rewrite (handleUpload_threw p file others e G E).
  - right; left. rewrite handleUpload_rejected_page; [reflexivity|].
    intros H%pdf_guard_spec. congruence.
Qed.

Lemma handleAnalyze_cases (p : Page) :
  snd (App.handleAnalyze b p)
  = withState (errorState "Please upload a document first" (state p)) p
  \/ snd (App.handleAnalyze b p)
     = withState (errorState "Please enter a question" (state p)) p
  \/ (exists docId a,
        activeDocId (state p) = Some docId /\ docId <> 0%Z
        /\ snd (App.handleAnalyze b p) = analyzedPage docId a p)
  \/ (exists docId e,
        activeDocId (state p) = Some docId /\ docId <> 0%Z
        /\ snd (App.handleAnalyze b p) = analyzeFailedPage docId e p).
Proof.
  destruct (JS.truthyNumber (activeDocId (state p))) eqn:Hd.
  - destruct (activeDocId (state p)) as [docId|] eqn:Ha; [|discriminate Hd].
    assert (Hz : docId <> 0%Z) by (intros ->; discriminate Hd).
    destruct (JS.trim (question (state p)) =? "") eqn:Hq.
    + apply String.eqb_eq in Hq. right; left.
      rewrite handleAnalyze_no_question; [reflexivity | | assumption].
      now rewrite Ha.
    + apply String.eqb_neq in Hq.
      destruct (fst (Api.analyzeDocument docId (question (state p)) b p))
        as [a|e] eqn:E.
      * right; right; left. exists docId, a.
        now rewrite (handleAnalyze_returned p docId a Ha Hz Hq E).
      * right; right; right. exists docId, e.
        now rewrite (handleAnalyze_threw p docId e Ha Hz Hq E).
  - left. now rewrite handleAnalyze_no_document.
Qed.

(** What the other two events do. *)
Lemma after_QuestionChange (p : Page) (text : string) :
  App.after b (App.QuestionChange text) p
  = withState (questionState text (state p)) p.
Proof. reflexivity. Qed.

Lemma after_TimerFire (p : Page) :
  App.after b App.TimerFire p
  = match timers p with
    | [] => p
    | _ :: rest =>
        {| state := bannerHiddenState (state p);
           fileInputRef := fileInputRef p;
           timers := rest;
           sent := sent p |}
    end.
Proof.
  unfold App.after, App.dispatch, bind, App.popTimer.
  destruct (timers p) as [|[[] ms] rest]; reflexivity.
Qed.

End NetEffect.

(* ------------------------------------------------------------------ *)
(** ** Blank strings *)

Section Stripping.

Variable ws : list string.

Hypothesis ws_nonempty : Forall (fun p => p <> "") ws.

(** No pattern is the start of another: a string that starts with a
    pattern loses exactly that pattern. *)
Hypothesis ws_exact :
  forall p rest, In p ws -> JS.stripOne ws (p ++ rest) = Some rest.

Lemma stripPrefix_inv (p s r : string) :
  JS.stripPrefix p s = Some r -> s = p ++ r.
Proof.
  revert s; induction p as [|a p IH]; intros [|c s] H; simpl in *;
    try discriminate.
  - now injection H as <-.
  - now injection H as <-.
  - destruct (Ascii.eqb_spec a c); [|discriminate]. subst.
    now rewrite (IH s H).
Qed.

Lemma stripOne_inv (s r : string) :
  JS.stripOne ws s = Some r -> exists p, In p ws /\ s = p ++ r.
Proof.
  clear ws_nonempty ws_exact.
  induction ws as [|p l IH]; simpl; [discriminate|].
  destruct (JS.stripPrefix p s) as [r'|] eqn:E.
  - intros H; injection H as ->. exists p. split; [now left|].
    now apply stripPrefix_inv.
  - intros H. destruct (IH H) as (q & Hq & ->). exists q. auto.
Qed.

Lemma append_assoc (a c d : string) : (a ++ c) ++ d = a ++ (c ++ d).
Proof. induction a as [|x a IH]; simpl; [reflexivity | now rewrite IH]. Qed.

Lemma append_nil_r (s : string) : s ++ "" = s.
Proof. induction s as [|c s IH]; simpl; [reflexivity | now rewrite IH]. Qed.

(** What [stripAll] removes is a sequence of patterns. *)
Lemma stripAll_inv (fuel : nat) (s : string) :
  exists parts,
    Forall (fun part => In part ws) parts
    /\ s = fold_right String.append "" parts ++ JS.stripAll ws fuel s.
Proof.
  revert s; induction fuel as [|fuel IH]; intros s; simpl.
  - now exists [].
  - destruct (JS.stripOne ws s) as [r|] eqn:E; [|now exists []].
    destruct (stripOne_inv s r E) as (p & Hp & ->).
    destruct (IH r) as (parts & Hparts & Hr).
    exists (p :: parts). split; [now constructor|].
    simpl. rewrite append_assoc. now rewrite <- Hr.
Qed.

(** A sequence of patterns is removed whole. *)
Lemma stripAll_parts (parts : list string) (fuel : nat) :
  Forall (fun part => In part ws) parts ->
  String.length (fold_right String.append "" parts) <= fuel ->
  JS.stripAll ws fuel (fold_right String.append "" parts) = "".
Proof.
  intros Hparts; revert fuel.
  induction Hparts as [|p parts Hp _ IH]; intros fuel Hlen; simpl in *.
  - destruct fuel; simpl; [reflexivity|].
    destruct (JS.stripOne ws "") as [r|] eqn:E; [|reflexivity].
    apply (stripOne_shorter ws "" r ws_nonempty) in E. simpl in E. lia.
  - rewrite length_append in Hlen.
    assert (Hne : p <> "")
      by now apply (proj1 (Forall_forall _ ws) ws_nonempty p).
    destruct fuel as [|fuel].
    + destruct p; [contradiction | simpl in Hlen; lia].
    + simpl. rewrite (ws_exact p _ Hp). apply IH.
      destruct p; [contradiction | simpl in Hlen; lia].
Qed.

End Stripping.

Section Blank.

Lemma whiteSpace_exact (p rest : string) :
  In p JS.whiteSpace -> JS.stripOne JS.whiteSpace (p ++ rest) = Some rest.
Proof.
  intros H. cbv in H.
  repeat (destruct H as [<- | H]; [reflexivity|]). contradiction.
Qed.

Lemma reversed_whiteSpace_exact (p rest : string) :
  In p (map JS.reverse JS.whiteSpace) ->
  JS.stripOne (map JS.reverse JS.whiteSpace) (p ++ rest) = Some rest.
Proof.
  intros H. cbv in H.
  repeat (destruct H as [<- | H]; [reflexivity|]). contradiction.
Qed.

Lemma to_list_append (a c : string) :
  list_ascii_of_string (a ++ c)
  = List.app (list_ascii_of_string a) (list_ascii_of_string c).
Proof. induction a as [|x a IH]; simpl; [reflexivity | now rewrite IH]. Qed.

Lemma of_list_append (l m : list ascii) :
  string_of_list_ascii (List.app l m)
  = string_of_list_ascii l ++ string_of_list_ascii m.
Proof. induction l as [|x l IH]; simpl; [reflexivity | now rewrite IH]. Qed.

Lemma reverse_append (a c : string) :
  JS.reverse (a ++ c) = JS.reverse c ++ JS.reverse a.
Proof.
  unfold JS.reverse. now rewrite to_list_append, rev_app_distr, of_list_append.
Qed.

Lemma reverse_empty (s : string) : JS.reverse s = "" -> s = "".
Proof.
  intros H. apply (f_equal JS.reverse) in H.
  now rewrite reverse_involutive in H.
Qed.

Lemma fold_append_app (l m : list string) :
  fold_right String.append "" (List.app l m)
  = fold_right String.append "" l ++ fold_right String.append "" m.
Proof.
  induction l as [|x l IH]; simpl; [reflexivity|].
  now rewrite IH, append_assoc.
Qed.

Lemma stripOne_some_whiteSpace (w rest : string) :
  In w JS.whiteSpace -> JS.stripOne JS.whiteSpace (w ++ rest) <> None.
Proof. intros H. now rewrite (whiteSpace_exact w rest H). Qed.

(** A string without leading white space does not end up empty by losing
    trailing white space, unless it is empty. *)
Lemma trimEnd_empty (t : string) :
  JS.stripOne JS.whiteSpace t = None -> JS.trimEnd t = "" -> t = "".
Proof.
  intros Hstart H. unfold JS.trimEnd in H. apply reverse_empty in H.
  destruct (stripAll_inv (map JS.reverse JS.whiteSpace)
              (String.length t) (JS.reverse t)) as (parts & Hparts & Ht).
  rewrite H, append_nil_r in Ht.
  destruct parts as [|q parts] using rev_ind.
  - now apply reverse_empty.
  - exfalso. rewrite fold_append_app in Ht. simpl in Ht.
    rewrite append_nil_r in Ht.
    apply Forall_app in Hparts as [_ Hq]. inversion Hq as [|? ? Hin _]; subst.
    apply in_map_iff in Hin as (w & <- & Hw).
    apply (f_equal JS.reverse) in Ht.
    rewrite reverse_involutive, reverse_append, reverse_involutive in Ht.
    subst t. exact (stripOne_some_whiteSpace w _ Hw Hstart).
Qed.

End Blank.

Section BlankTrim.

(** [trim] gives the empty string exactly for the blank strings. *)
Lemma trim_blank (s : string) : JS.trim s = "" <-> blank s.
Proof.
  split.
  - intros H. unfold JS.trim in H.
    apply trimEnd_empty in H; [|apply trimStart_done].
    destruct (stripAll_inv JS.whiteSpace (String.length s) s)
      as (parts & Hparts & Hs).
    fold (JS.trimStart s) in Hs. rewrite H, append_nil_r in Hs.
    now exists parts.
  - intros (parts & Hparts & ->). unfold JS.trim, JS.trimStart.
    rewrite (stripAll_parts JS.whiteSpace whiteSpace_nonempty
               whiteSpace_exact parts _ Hparts (le_n _)).
    reflexivity.
Qed.

End BlankTrim.

(* ------------------------------------------------------------------ *)
(** ** Further properties of the API client *)

(** X1: whatever the backend answers, each operation sends exactly one
    request (the upload form, the list query, the JSON analyze body) and
    leaves the rest of the page as it was: there is no retry. *)
Theorem X1_api_sends_one_request
    (b : Backend) (p : Page) (file : File) (title : option string)
    (docId : Z) (text : string) :
  snd (Api.uploadDocument file title b p)
  = pushSent (uploadRequest file title) p
  /\ snd (Api.getDocuments b p) = pushSent listRequest p
  /\ snd (Api.analyzeDocument docId text b p)
     = pushSent (analyzeRequest docId text) p.
Proof.
  rewrite (uploadDocument_run b file title p p eq_refl),
    (getDocuments_run b p p eq_refl),
    (analyzeDocument_run b docId text p p eq_refl).
  repeat split.
Qed.

(** X2: when [fetch] itself rejects (the backend cannot be reached), each
    operation throws that same error, unwrapped. *)
Theorem X2_network_error_propagates
    (b : Backend) (p : Page) (file : File) (title : option string)
    (docId : Z) (text : string) (e : JS.Thrown) :
  let history := map request (sent p) in
  (documents_POST b history (uploadRequest file title) = Threw e ->
   fst (Api.uploadDocument file title b p) = Threw e)
  /\ (documents_GET b history listRequest = Threw e ->
      fst (Api.getDocuments b p) = Threw e)
  /\ (analyze_POST b history (analyzeRequest docId text) = Threw e ->
      fst (Api.analyzeDocument docId text b p) = Threw e).
Proof.
  cbv zeta.
  unfold Api.uploadDocument, Api.getDocuments, Api.analyzeDocument, bind,
    fetch, uploadRequest, listRequest, analyzeRequest, JS.truthyString.
  cbn. split; [|split].
  - destruct title as [t|]; [destruct (t =? "")|]; cbn;
      intros ->; reflexivity.
  - intros ->; reflexivity.
  - intros ->; reflexivity.
Qed.

Lemma X2_network_error_propagates_witness :
  fst (Api.uploadDocument notes_pdf None offline firstPage)
  = Threw (JS.ErrorObject "TypeError" "Failed to fetch")
  /\ fst (Api.getDocuments offline firstPage)
     = Threw (JS.ErrorObject "TypeError" "Failed to fetch")
  /\ fst (Api.analyzeDocument 7 "What is the thesis?" offline firstPage)
     = Threw (JS.ErrorObject "TypeError" "Failed to fetch").
Proof.
  destruct (X2_network_error_propagates offline firstPage notes_pdf None 7
              "What is the thesis?"
              (JS.ErrorObject "TypeError" "Failed to fetch"))
    as (Hu & Hl & Ha).
  split; [|split]; [apply Hu | apply Hl | apply Ha]; reflexivity.
Defined.

(** X3: on a success status each operation ends as [response.json()]
    does: it returns the parsed body, or throws the error of a body that
    does not parse. *)
Theorem X3_success_body_is_the_result
    (b : Backend) (p : Page) (file : File) (title : option string)
    (docId : Z) (text : string)
    (uploaded : Outcome UploadResponse.t)
    (listed : Outcome (list Document.t))
    (analyzed : Outcome AnalyzeResponse.t) :
  let history := map request (sent p) in
  (documents_POST b history (uploadRequest file title)
   = Returned (Success uploaded) ->
   fst (Api.uploadDocument file title b p) = uploaded)
  /\ (documents_GET b history listRequest = Returned (Success listed) ->
      fst (Api.getDocuments b p) = listed)
  /\ (analyze_POST b history (analyzeRequest docId text)
      = Returned (Success analyzed) ->
      fst (Api.analyzeDocument docId text b p) = analyzed).
Proof.
  cbv zeta.
  unfold Api.uploadDocument, Api.getDocuments, Api.analyzeDocument, bind,
    fetch, await, uploadRequest, listRequest, analyzeRequest,
    JS.truthyString.
  cbn. split; [|split].
  - destruct title as [t|]; [destruct (t =? "")|]; cbn;
      intros ->; destruct uploaded; reflexivity.
  - intros ->; destruct listed; reflexivity.
  - intros ->; destruct analyzed; reflexivity.
Qed.

Lemma X3_success_body_is_the_result_witness :
  fst (Api.uploadDocument notes_pdf None notesBackend firstPage)
  = Returned notesUploaded
  /\ fst (Api.getDocuments notesBackend firstPage) = Returned []
  /\ fst (Api.analyzeDocument 7 "What is the thesis?" notesBackend firstPage)
     = Returned thesisAnalyzed.
Proof.
  destruct (X3_success_body_is_the_result notesBackend firstPage notes_pdf
              None 7 "What is the thesis?" (Returned notesUploaded)
              (Returned []) (Returned thesisAnalyzed))
    as (Hu & Hl & Ha).
  split; [|split]; [apply Hu | apply Hl | apply Ha]; reflexivity.
Defined.

(** X4: a refusal whose body is the JSON value [null] makes the upload
    and the analyze operations throw a TypeError (reading [error] of
    [null]) instead of an error with a message for the user. *)
Theorem X4_null_body_throws_type_error
    (b : Backend) (p : Page) (file : File) (title : option string)
    (docId : Z) (text : string) (status : Z) :
  let history := map request (sent p) in
  (documents_POST b history (uploadRequest file title)
   = Returned (Failure status (Returned JS.JNull)) ->
   exists message,
     fst (Api.uploadDocument file title b p)
     = Threw (JS.ErrorObject "TypeError" message))
  /\ (analyze_POST b history (analyzeRequest docId text)
      = Returned (Failure status (Returned JS.JNull)) ->
      exists message,
        fst (Api.analyzeDocument docId text b p)
        = Threw (JS.ErrorObject "TypeError" message)).
Proof.
  cbv zeta.
  unfold Api.uploadDocument, Api.analyzeDocument, bind, fetch, await, throw,
    uploadRequest, analyzeRequest, JS.truthyString.
  cbn. split.
  - destruct title as [t|]; [destruct (t =? "")|]; cbn;
      intros ->; eexists; reflexivity.
  - intros ->; eexists; reflexivity.
Qed.

Lemma X4_null_body_throws_type_error_witness :
  (exists message,
      fst (Api.uploadDocument notes_pdf None
             (refusing 500 (Returned JS.JNull)) firstPage)
      = Threw (JS.ErrorObject "TypeError" message))
  /\ (exists message,
        fst (Api.analyzeDocument 7 "What is the thesis?"
               (refusing 500 (Returned JS.JNull)) firstPage)
        = Threw (JS.ErrorObject "TypeError" message)).
Proof.
  destruct (X4_null_body_throws_type_error
              (refusing 500 (Returned JS.JNull)) firstPage notes_pdf None 7
              "What is the thesis?" 500)
    as (Hu & Ha).
  split; [apply Hu | apply Ha]; reflexivity.
Defined.

(** X5: a refusal whose body is JSON but neither an object nor [null] (a
    string, a number, a boolean, an array) has no [error] property: the
    upload operation throws "Upload failed" and the analyze operation
    "Analysis failed". *)
Theorem X5_non_object_body_gives_fallback
    (b : Backend) (p : Page) (file : File) (title : option string)
    (docId : Z) (text : string) (status : Z) (v : JS.Json) :
  (forall fields, v <> JS.JObj fields) ->
  v <> JS.JNull ->
  let history := map request (sent p) in
  (documents_POST b history (uploadRequest file title)
   = Returned (Failure status (Returned v)) ->
   fst (Api.uploadDocument file title b p)
   = Threw (JS.ErrorObject "Error" "Upload failed"))
  /\ (analyze_POST b history (analyzeRequest docId text)
      = Returned (Failure status (Returned v)) ->
      fst (Api.analyzeDocument docId text b p)
      = Threw (JS.ErrorObject "Error" "Analysis failed")).
Proof.
  intros Hobj Hnull. cbv zeta.
  unfold Api.uploadDocument, Api.analyzeDocument, bind, fetch, await, throw,
    uploadRequest, analyzeRequest, JS.truthyString.
  cbn. split.
  - destruct title as [t|]; [destruct (t =? "")|]; cbn; intros ->;
      destruct v; try reflexivity; solve [congruence | now destruct (Hobj fields)].
  - intros ->;
      destruct v; try reflexivity; solve [congruence | now destruct (Hobj fields)].
Qed.

Lemma X5_non_object_body_gives_fallback_witness :
  (forall fields, JS.JStr "Internal Server Error" <> JS.JObj fields)
  /\ JS.JStr "Internal Server Error" <> JS.JNull
  /\ fst (Api.uploadDocument notes_pdf None
            (refusing 500 (Returned (JS.JStr "Internal Server Error")))
            firstPage)
     = Threw (JS.ErrorObject "Error" "Upload failed")
  /\ fst (Api.analyzeDocument 7 "What is the thesis?"
            (refusing 500 (Returned (JS.JStr "Internal Server Error")))
            firstPage)
     = Threw (JS.ErrorObject "Error" "Analysis failed").
Proof.
  assert (Hobj : forall fields,
             JS.JStr "Internal Server Error" <> JS.JObj fields)
    by discriminate.
  assert (Hnull : JS.JStr "Internal Server Error" <> JS.JNull)
    by discriminate.
  destruct (X5_non_object_body_gives_fallback
              (refusing 500 (Returned (JS.JStr "Internal Server Error")))
              firstPage notes_pdf None 7 "What is the thesis?" 500
              (JS.JStr "Internal Server Error") Hobj Hnull)
    as (Hu & Ha).
  split; [exact Hobj|]. split; [exact Hnull|].
  split; [apply Hu | apply Ha]; reflexivity.
Defined.

(** X6: an empty title is no title: the upload operation given the empty
    string as title behaves exactly as without a title, and a non-empty
    title is sent as the form field [title] after the file. *)
Theorem X6_empty_title_is_omitted
    (b : Backend) (p : Page) (file : File) (title : string) :
  Api.uploadDocument file (Some "") b p = Api.uploadDocument file None b p
  /\ (title <> "" ->
      map (fun s => body (request s))
        (sent (snd (Api.uploadDocument file (Some title) b p)))
      = FormData [("file", FormFile file); ("title", FormString title)]
        :: map (fun s => body (request s)) (sent p)).
Proof.
  split; [reflexivity|].
  intros H%String.eqb_neq.
  rewrite (uploadDocument_run b file (Some title) p p eq_refl).
  unfold uploadRequest. rewrite H. reflexivity.
Qed.

Lemma X6_empty_title_is_omitted_witness :
  "Notes" <> ""
  /\ map (fun s => body (request s))
       (sent (snd (Api.uploadDocument notes_pdf (Some "Notes") offline
                     firstPage)))
     = FormData [("file", FormFile notes_pdf); ("title", FormString "Notes")]
       :: map (fun s => body (request s)) (sent firstPage).
Proof.
  assert (H : "Notes" <> "") by discriminate.
  exact (conj H
           (proj2 (X6_empty_title_is_omitted offline firstPage notes_pdf
                     "Notes") H)).
Defined.

(* ------------------------------------------------------------------ *)
(** ** Further properties of the upload handler *)

(** X7: a change event without a file (no file list, or an empty one)
    does nothing at all: the handler returns and the page is as before. *)
Theorem X7_no_file_no_effect
    (b : Backend) (p : Page) (event : App.ChangeEvent) :
  App.files event = None \/ App.files event = Some [] ->
  App.handleUpload event b p = (Returned tt, p).
Proof. apply handleUpload_no_file. Qed.

Lemma X7_no_file_no_effect_witness :
  (App.files {| App.files := Some [] |} = None
   \/ App.files {| App.files := Some [] |} = Some [])
  /\ App.handleUpload {| App.files := Some [] |} notesBackend notesPage
     = (Returned tt, notesPage).
Proof.
  exact (conj (or_intror eq_refl)
           (X7_no_file_no_effect notesBackend notesPage
              {| App.files := Some [] |} (or_intror eq_refl))).
Defined.

(** X9: a pick that passes the filename check sends exactly one request,
    the upload of that file without a title, and sends it with the
    uploading flag set and the previous error, success banner and upload
    message cleared; the document, the question and the analysis shown are
    as before at that moment. *)
Theorem X9_upload_request_is_sent_busy
    (b : Backend) (p : Page) (file : File) (others : list File) :
  endsInPdf (name file) ->
  exists s,
    sent (snd (App.handleUpload {| App.files := Some (file :: others) |} b p))
    = s :: sent p
    /\ url (request s) = "/api/documents/"
    /\ method (request s) = "POST"
    /\ body (request s) = FormData [("file", FormFile file)]
    /\ isUploading (stateWhenSent s) = true
    /\ error (stateWhenSent s) = None
    /\ uploadSuccess (stateWhenSent s) = false
    /\ uploadMessage (stateWhenSent s) = None
    /\ activeDocId (stateWhenSent s) = activeDocId (state p)
    /\ currentFileUrl (stateWhenSent s) = currentFileUrl (state p)
    /\ question (stateWhenSent s) = question (state p)
    /\ result (stateWhenSent s) = result (state p)
    /\ highlights (stateWhenSent s) = highlights (state p).
Proof.
  intros H.
  destruct (fst (Api.uploadDocument file None b p)) as [r|e] eqn:E.
  - rewrite (handleUpload_returned b p file others r H E).
    eexists. split; [reflexivity|]. repeat split.
  - rewrite (handleUpload_threw b p file others e H E).
    eexists. split; [reflexivity|]. repeat split.
Qed.

Lemma X9_upload_request_is_sent_busy_witness :
  endsInPdf (name notes_pdf)
  /\ exists s,
       sent (snd (App.handleUpload {| App.files := Some [notes_pdf] |}
                    offline notesPage))
       = s :: sent notesPage
       /\ url (request s) = "/api/documents/"
       /\ method (request s) = "POST"
       /\ body (request s) = FormData [("file", FormFile notes_pdf)]
       /\ isUploading (stateWhenSent s) = true
       /\ error (stateWhenSent s) = None
       /\ uploadSuccess (stateWhenSent s) = false
       /\ uploadMessage (stateWhenSent s) = None
       /\ activeDocId (stateWhenSent s) = activeDocId (state notesPage)
       /\ currentFileUrl (stateWhenSent s) = currentFileUrl (state notesPage)
       /\ question (stateWhenSent s) = question (state notesPage)
       /\ result (stateWhenSent s) = result (state notesPage)
       /\ highlights (stateWhenSent s) = highlights (state notesPage).
Proof.
  exact (conj notes_pdf_is_pdf
           (X9_upload_request_is_sent_busy offline notesPage notes_pdf []
              notes_pdf_is_pdf)).
Defined.

(** X10: after an upload that returned, no error is shown, the uploading
    flag is down, the success banner is up with the processing message of
    the response, exactly one timer of 5000 ms that hides the banner has
    been added after those already pending, and the analyzing flag is as
    before. *)
Theorem X10_upload_success_feedback
    (b : Backend) (p : Page) (file : File) (others : list File)
    (r : UploadResponse.t) :
  endsInPdf (name file) ->
  fst (Api.uploadDocument file None b p) = Returned r ->
  let p' :=
    snd (App.handleUpload {| App.files := Some (file :: others) |} b p) in
  error (state p') = None
  /\ isUploading (state p') = false
  /\ uploadSuccess (state p') = true
  /\ uploadMessage (state p') = Some (UploadResponse.processing_message r)
  /\ timers p'
     = List.app (timers p) [{| callback := hideUploadSuccess; delay := 5000 |}]
  /\ isAnalyzing (state p') = isAnalyzing (state p).
Proof.
  intros H Hr. cbv zeta. rewrite (handleUpload_returned b p file others r H Hr).
  repeat split.
Qed.

Lemma X10_upload_success_feedback_witness :
  endsInPdf (name notes_pdf)
  /\ fst (Api.uploadDocument notes_pdf None notesBackend firstPage)
     = Returned notesUploaded
  /\ (let p' :=
        snd (App.handleUpload {| App.files := Some [notes_pdf] |}
               notesBackend firstPage) in
      error (state p') = None
      /\ isUploading (state p') = false
      /\ uploadSuccess (state p') = true
      /\ uploadMessage (state p')
         = Some (UploadResponse.processing_message notesUploaded)
      /\ timers p'
         = List.app (timers firstPage)
             [{| callback := hideUploadSuccess; delay := 5000 |}]
      /\ isAnalyzing (state p') = isAnalyzing (state firstPage)).
Proof.
  exact (conj notes_pdf_is_pdf
           (conj eq_refl
              (X10_upload_success_feedback notesBackend firstPage notes_pdf
                 [] notesUploaded notes_pdf_is_pdf eq_refl))).
Defined.

(** X11: every pick that passes the filename check ends, whether the
    request returned or threw, with the uploading flag down and the file
    input emptied if it is mounted (an unmounted input stays unmounted);
    an upload that threw schedules no timer. *)
Theorem X11_upload_attempt_cleans_up
    (b : Backend) (p : Page) (file : File) (others : list File) :
  endsInPdf (name file) ->
  let run := App.handleUpload {| App.files := Some (file :: others) |} b p in
  isUploading (state (snd run)) = false
  /\ fileInputRef (snd run)
     = match fileInputRef p with
       | Some _ => Some {| value := "" |}
       | None => None
       end
  /\ match fst (Api.uploadDocument file None b p) with
     | Threw _ => timers (snd run) = timers p
     | Returned _ => List.length (timers (snd run)) = S (List.length (timers p))
     end.
Proof.
  intros H. cbv zeta.
  destruct (fst (Api.uploadDocument file None b p)) as [r|e] eqn:E.
  - rewrite (handleUpload_returned b p file others r H E).
    repeat split. cbn. rewrite length_app. cbn. lia.
  - rewrite (handleUpload_threw b p file others e H E). repeat split.
Qed.

Lemma X11_upload_attempt_cleans_up_witness :
  endsInPdf (name notes_pdf)
  /\ (let run :=
        App.handleUpload {| App.files := Some [notes_pdf] |} offline
          txtPickedPage in
      isUploading (state (snd run)) = false
      /\ fileInputRef (snd run)
         = match fileInputRef txtPickedPage with
           | Some _ => Some {| value := "" |}
           | None => None
           end
      /\ match fst (Api.uploadDocument notes_pdf None offline txtPickedPage)
         with
         | Threw _ => timers (snd run) = timers txtPickedPage
         | Returned _ =>
             List.length (timers (snd run))
             = S (List.length (timers txtPickedPage))
         end).
Proof.
  exact (conj notes_pdf_is_pdf
           (X11_upload_attempt_cleans_up offline txtPickedPage notes_pdf []
              notes_pdf_is_pdf)).
Defined.

(** X12: a pick refused by the filename check replaces the error message
    and touches nothing else: the document, the question, the analysis
    shown, both busy flags, the success banner, the file input, the
    pending timers and the request log are all as before. *)
Theorem X12_rejected_pick_changes_only_the_error
    (b : Backend) (p : Page) (file : File) (others : list File) :
  ~ endsInPdf (name file) ->
  let p' :=
    snd (App.handleUpload {| App.files := Some (file :: others) |} b p) in
  p' = withState (errorState "Please select a PDF file" (state p)) p
  /\ App.errorShown (state p') = true.
Proof.
  intros H. cbv zeta. rewrite (handleUpload_rejected_page b p file others H).
  split; reflexivity.
Qed.

Lemma X12_rejected_pick_changes_only_the_error_witness :
  ~ endsInPdf (name notes_txt)
  /\ (let p' :=
        snd (App.handleUpload {| App.files := Some [notes_txt] |}
               notesBackend notesPage) in
      p' = withState (errorState "Please select a PDF file" (state notesPage))
             notesPage
      /\ App.errorShown (state p') = true).
Proof.
  exact (conj notes_txt_not_pdf
           (X12_rejected_pick_changes_only_the_error notesBackend notesPage
              notes_txt [] notes_txt_not_pdf)).
Defined.

(** X13: after an upload that threw, the error panel is rendered exactly
    when the message of what was thrown is not empty: a failure with an
    empty message (a refusal whose [error] field is an empty array prints
    as the empty string) leaves the user without any message. *)
Theorem X13_empty_failure_message_is_not_shown
    (b : Backend) (p : Page) (file : File) (others : list File)
    (e : JS.Thrown) :
  endsInPdf (name file) ->
  fst (Api.uploadDocument file None b p) = Threw e ->
  App.errorShown
    (state (snd (App.handleUpload {| App.files := Some (file :: others) |}
                   b p)))
  = negb (App.messageOf e "Upload failed" =? "").
Proof.
  intros H He. rewrite (handleUpload_threw b p file others e H He).
  reflexivity.
Qed.

Lemma X13_empty_failure_message_is_not_shown_witness :
  endsInPdf (name notes_pdf)
  /\ fst (Api.uploadDocument notes_pdf None
            (refusing 400 (Returned (JS.JObj [("error", JS.JArr [])])))
            firstPage)
     = Threw (JS.ErrorObject "Error" "")
  /\ App.errorShown
       (state (snd (App.handleUpload {| App.files := Some [notes_pdf] |}
                      (refusing 400
                         (Returned (JS.JObj [("error", JS.JArr [])])))
                      firstPage)))
     = negb (App.messageOf (JS.ErrorObject "Error" "") "Upload failed" =? "").
Proof.
  exact (conj notes_pdf_is_pdf
           (conj eq_refl
              (X13_empty_failure_message_is_not_shown
                 (refusing 400 (Returned (JS.JObj [("error", JS.JArr [])])))
                 firstPage notes_pdf [] (JS.ErrorObject "Error" "")
                 notes_pdf_is_pdf eq_refl))).
Defined.

(* ------------------------------------------------------------------ *)
(** ** The banner timer *)

(** X14: when a pending timer fires, the success banner and the upload
    message are cleared, that timer is gone and nothing else on the page
    changes; with no timer pending nothing happens. *)
Theorem X14_timer_hides_banner (b : Backend) (p : Page) :
  let p' := App.after b App.TimerFire p in
  match timers p with
  | [] => p' = p
  | _ :: rest =>
      state p' = bannerHiddenState (state p)
      /\ timers p' = rest
      /\ fileInputRef p' = fileInputRef p
      /\ sent p' = sent p
  end.
Proof.
  cbv zeta. rewrite after_TimerFire.
  destruct (timers p); [reflexivity | repeat split].
Qed.

(** X15: the timer of an upload is not cancelled by a later upload: when
    a second upload returns before the timer of the first has fired, that
    timer then hides the banner of the second upload, whose own timer is
    still pending. *)
Theorem X15_stale_timer_hides_newer_banner
    (b : Backend) (p : Page)
    (file1 file2 : File) (others1 others2 : list File)
    (r1 r2 : UploadResponse.t) :
  timers p = [] ->
  endsInPdf (name file1) ->
  fst (Api.uploadDocument file1 None b p) = Returned r1 ->
  endsInPdf (name file2) ->
  fst (Api.uploadDocument file2 None b (App.after b (pick file1 others1) p))
  = Returned r2 ->
  let p2 :=
    App.after b (pick file2 others2) (App.after b (pick file1 others1) p) in
  let p3 := App.after b App.TimerFire p2 in
  uploadSuccess (state p2) = true
  /\ uploadMessage (state p2) = Some (UploadResponse.processing_message r2)
  /\ activeDocId (state p3) = Some (UploadResponse.id r2)
  /\ uploadSuccess (state p3) = false
  /\ uploadMessage (state p3) = None
  /\ timers p3 = [{| callback := hideUploadSuccess; delay := 5000 |}].
Proof.
  intros Ht H1 Hr1 H2 Hr2. cbv zeta.
  assert (E1 : App.after b (pick file1 others1) p = uploadedPage file1 r1 p).
  { unfold App.after, pick, App.dispatch.
    now rewrite (handleUpload_returned b p file1 others1 r1 H1 Hr1). }
  rewrite E1 in *.
  assert (E2 : App.after b (pick file2 others2) (uploadedPage file1 r1 p)
               = uploadedPage file2 r2 (uploadedPage file1 r1 p)).
  { unfold App.after, pick, App.dispatch.
    now rewrite (handleUpload_returned b _ file2 others2 r2 H2 Hr2). }
  rewrite E2, after_TimerFire. cbn. rewrite Ht. repeat split.
Qed.

Lemma X15_stale_timer_hides_newer_banner_witness :
  timers firstPage = []
  /\ endsInPdf (name notes_pdf)
  /\ fst (Api.uploadDocument notes_pdf None notesBackend firstPage)
     = Returned notesUploaded
  /\ fst (Api.uploadDocument notes_pdf None notesBackend
            (App.after notesBackend (pick notes_pdf []) firstPage))
     = Returned notesUploaded
  /\ (let p2 :=
        App.after notesBackend (pick notes_pdf [])
          (App.after notesBackend (pick notes_pdf []) firstPage) in
      let p3 := App.after notesBackend App.TimerFire p2 in
      uploadSuccess (state p2) = true
      /\ uploadMessage (state p2)
         = Some (UploadResponse.processing_message notesUploaded)
      /\ activeDocId (state p3) = Some (UploadResponse.id notesUploaded)
      /\ uploadSuccess (state p3) = false
      /\ uploadMessage (state p3) = None
      /\ timers p3 = [{| callback := hideUploadSuccess; delay := 5000 |}]).
Proof.
  exact (conj eq_refl
           (conj notes_pdf_is_pdf
              (conj eq_refl
                 (conj eq_refl
                    (X15_stale_timer_hides_newer_banner notesBackend
                       firstPage notes_pdf notes_pdf [] [] notesUploaded
                       notesUploaded eq_refl notes_pdf_is_pdf eq_refl
                       notes_pdf_is_pdf eq_refl))))).
Defined.

(* ------------------------------------------------------------------ *)
(** ** Further properties of the analyze handler *)

Lemma cons_differs {A} (x : A) (l : list A) : x :: l <> l.
Proof.
  intros H. apply (f_equal (@List.length A)) in H. cbn in H. lia.
Qed.

(** With an active document and a question that is not blank, a click
    sends a request. *)
Lemma handleAnalyze_ready (b : Backend) (p : Page) (docId : Z) :
  activeDocId (state p) = Some docId ->
  docId <> 0%Z ->
  JS.trim (question (state p)) <> "" ->
  sent (snd (App.handleAnalyze b p)) <> sent p.
Proof.
  intros Ha Hz Hq.
  destruct (fst (Api.analyzeDocument docId (question (state p)) b p))
    as [a|e] eqn:E.
  - rewrite (handleAnalyze_returned b p docId a Ha Hz Hq E).
    apply cons_differs.
  - rewrite (handleAnalyze_threw b p docId e Ha Hz Hq E).
    apply cons_differs.
Qed.

(** X16: a click on Analyze, whatever it comes to, never changes the
    active document, its title and preview URL, the text of the question
    box, the uploading flag, the success banner and its message, the file
    input or the pending timers. *)
Theorem X16_analyze_leaves_document_and_upload_state
    (b : Backend) (p : Page) :
  let p' := snd (App.handleAnalyze b p) in
  activeDocId (state p') = activeDocId (state p)
  /\ currentFileUrl (state p') = currentFileUrl (state p)
  /\ documentTitle (state p') = documentTitle (state p)
  /\ question (state p') = question (state p)
  /\ isUploading (state p') = isUploading (state p)
  /\ uploadSuccess (state p') = uploadSuccess (state p)
  /\ uploadMessage (state p') = uploadMessage (state p)
  /\ fileInputRef p' = fileInputRef p
  /\ timers p' = timers p.
Proof.
  cbv zeta.
  destruct (handleAnalyze_cases b p)
    as [-> | [-> | [(docId & a & _ & _ & ->) | (docId & e & _ & _ & ->)]]];
    repeat split.
Qed.

(** X17: a click on Analyze that sends nothing (it was refused by one of
    the two checks) shows an error and keeps the previous answer: the
    result and the highlights are as before, and so is the analyzing
    flag. *)
Theorem X17_refused_analysis_keeps_previous_answer
    (b : Backend) (p : Page) :
  sent (snd (App.handleAnalyze b p)) = sent p ->
  let p' := snd (App.handleAnalyze b p) in
  result (state p') = result (state p)
  /\ highlights (state p') = highlights (state p)
  /\ isAnalyzing (state p') = isAnalyzing (state p)
  /\ App.errorShown (state p') = true.
Proof.
  cbv zeta.
  destruct (handleAnalyze_cases b p)
    as [-> | [-> | [(docId & a & _ & _ & ->) | (docId & e & _ & _ & ->)]]];
    intros H; try (repeat split; fail);
    now apply cons_differs in H.
Qed.

Lemma X17_refused_analysis_keeps_previous_answer_witness :
  sent (snd (App.handleAnalyze notesBackend
               (withState (questionState "  " notesState) notesPage)))
  = sent (withState (questionState "  " notesState) notesPage)
  /\ (let p' :=
        snd (App.handleAnalyze notesBackend
               (withState (questionState "  " notesState) notesPage)) in
      result (state p') = Some thesisAnalyzed
      /\ highlights (state p') = [thesisClaim]
      /\ isAnalyzing (state p') = false
      /\ App.errorShown (state p') = true).
Proof.
  exact (conj eq_refl
           (X17_refused_analysis_keeps_previous_answer notesBackend
              (withState (questionState "  " notesState) notesPage)
              eq_refl)).
Defined.

(** X18: with an active document (an id other than 0), a click on Analyze
    sends nothing exactly when the question is blank, that is, made only
    of white-space characters (spaces, tabs, line breaks, no-break spaces
    and the other Unicode spaces) or empty. *)
Theorem X18_blank_question_is_never_sent
    (b : Backend) (p : Page) (docId : Z) :
  activeDocId (state p) = Some docId ->
  docId <> 0%Z ->
  (sent (snd (App.handleAnalyze b p)) = sent p
   <-> blank (question (state p))).
Proof.
  intros Ha Hz. rewrite <- trim_blank. split.
  - intros H.
    destruct (String.eqb_spec (JS.trim (question (state p))) "") as [E|E];
      [exact E|].
    now destruct (handleAnalyze_ready b p docId Ha Hz E).
  - intros E. rewrite handleAnalyze_no_question; [reflexivity | | exact E].
    rewrite Ha. cbn. now apply Z.eqb_neq in Hz as ->.
Qed.

Lemma tab_and_spaces_blank :
  blank
    (question
       (state (withState
                 (questionState (JS.utf8 [9; 32; 194; 160; 10]) notesState)
                 notesPage))).
Proof.
  exists [JS.utf8 [9]; JS.utf8 [32]; JS.utf8 [194; 160]; JS.utf8 [10]].
  split; [|reflexivity].
  repeat constructor; cbv; tauto.
Qed.

Lemma X18_blank_question_is_never_sent_witness :
  activeDocId
    (state (withState
              (questionState (JS.utf8 [9; 32; 194; 160; 10]) notesState)
              notesPage))
  = Some 7%Z
  /\ 7%Z <> 0%Z
  /\ sent (snd (App.handleAnalyze notesBackend
                  (withState
                     (questionState (JS.utf8 [9; 32; 194; 160; 10])
                        notesState)
                     notesPage)))
     = sent (withState
               (questionState (JS.utf8 [9; 32; 194; 160; 10]) notesState)
               notesPage).
Proof.
  exact (conj eq_refl
           (conj seven_not_zero
              (proj2 (X18_blank_question_is_never_sent notesBackend
                        (withState
                           (questionState (JS.utf8 [9; 32; 194; 160; 10])
                              notesState)
                           notesPage)
                        7 eq_refl seven_not_zero)
                 tab_and_spaces_blank))).
Defined.

(** X19: the Analyze button and the handler behind it agree: while no
    analysis is running, the button is disabled exactly in the states in
    which a click would send nothing. *)
Theorem X19_button_guard_matches_handler (b : Backend) (p : Page) :
  isAnalyzing (state p) = false ->
  (App.analyzeDisabled (state p) = true
   <-> sent (snd (App.handleAnalyze b p)) = sent p).
Proof.
  intros Hrun. unfold App.analyzeDisabled. rewrite Hrun. cbn [orb].
  destruct (JS.truthyNumber (activeDocId (state p))) eqn:Hd; cbn [negb orb].
  - destruct (activeDocId (state p)) as [docId|] eqn:Ha; [|discriminate Hd].
    assert (Hz : docId <> 0%Z) by (intros ->; discriminate Hd).
    unfold JS.truthyString.
    destruct (String.eqb_spec (JS.trim (question (state p))) "") as [E|E];
      cbn [negb].
    + split; [intros _ | reflexivity].
      rewrite handleAnalyze_no_question; [reflexivity | | exact E].
      now rewrite Ha.
    + split; [discriminate|]. intros H.
      now destruct (handleAnalyze_ready b p docId Ha Hz E).
  - split; [intros _ | reflexivity].
    now rewrite handleAnalyze_no_document.
Qed.

Lemma X19_button_guard_matches_handler_witness :
  isAnalyzing (state zeroDocPage) = false
  /\ (App.analyzeDisabled (state zeroDocPage) = true
      <-> sent (snd (App.handleAnalyze notesBackend zeroDocPage))
          = sent zeroDocPage).
Proof.
  exact (conj eq_refl
           (X19_button_guard_matches_handler notesBackend zeroDocPage
              eq_refl)).
Defined.

(* ------------------------------------------------------------------ *)
(** ** Invariants of the page *)

Section Invariants.

Variable b : Backend.

(** Every event makes one of the changes of [step]. *)
Lemma after_step (ev : App.Event) (p : Page) : step p (App.after b ev p).
Proof.
  destruct ev as [event | text | | ].
  - unfold App.after, App.dispatch.
    destruct (handleUpload_cases b p event)
      as [-> | [-> | [(file & r & _ & ->) | (file & e & ->)]]].
    + constructor.
    + now constructor.
    + constructor.
    + constructor.
  - rewrite after_QuestionChange. constructor.
  - unfold App.after, App.dispatch.
    destruct (handleAnalyze_cases b p)
      as [-> | [-> | [(docId & a & Ha & Hz & ->)
                     | (docId & e & Ha & Hz & ->)]]].
    + now constructor.
    + now constructor.
    + now constructor.
    + now constructor.
  - rewrite after_TimerFire.
    destruct (timers p) as [|t rest] eqn:E; [constructor|].
    now apply (step_timer p t rest).
Qed.

Lemma afterAll_invariant (I : Page -> Prop) :
  (forall p p', step p p' -> I p -> I p') ->
  forall evs p, I p -> I (App.afterAll b evs p).
Proof.
  intros Hstep evs; induction evs as [|ev evs IH]; intros p Hp;
    [exact Hp|].
  change (App.afterAll b (ev :: evs) p)
    with (App.afterAll b evs (App.after b ev p)).
  apply IH. apply (Hstep p); [apply after_step | exact Hp].
Qed.

Lemma step_atRest (p p' : Page) :
  step p p' -> atRest (state p) -> atRest (state p').
Proof. intros Hs [Hu Ha]; destruct Hs; split; cbn; auto. Qed.

Lemma step_answerBound (p p' : Page) :
  step p p' -> answerBound (state p) -> answerBound (state p').
Proof.
  intros Hs [Hh Hr]; destruct Hs; split; cbn; auto; try congruence.
  intros _. match goal with H : activeDocId _ = Some _ |- _ => rewrite H end.
  cbn. match goal with H : _ <> 0%Z |- _ => now apply Z.eqb_neq in H as -> end.
Qed.


(** X20: from a page with no request in flight, no sequence of events
    leaves a busy flag up: once each handler has finished, neither the
    uploading nor the analyzing flag is set, so no control stays
    disabled. *)
Theorem X20_busy_flags_come_down (p : Page) (evs : list App.Event) :
  atRest (state p) ->
  isUploading (state (App.afterAll b evs p)) = false
  /\ isAnalyzing (state (App.afterAll b evs p)) = false
  /\ App.fileInputDisabled (state (App.afterAll b evs p)) = false.
Proof.
  intros H.
  destruct (afterAll_invariant (fun q => atRest (state q)) step_atRest
              evs p H) as [Hu Ha].
  repeat split; assumption.
Qed.

(** X21: as long as each handler runs to its end before the next event
    (no file is picked while an analysis is pending), after any sequence of
    events the highlights are the claims of the result shown (none when
    there is no result), and a result is shown only while the active
    document id is truthy. *)
Theorem X21_answer_stays_bound (p : Page) (evs : list App.Event) :
  answerBound (state p) ->
  let s := state (App.afterAll b evs p) in
  highlights s
  = match result s with
    | Some a => AnalyzeResponse.claims a
    | None => []
    end
  /\ (result s <> None -> JS.truthyNumber (activeDocId s) = true).
Proof.
  intros H.
  exact (afterAll_invariant (fun q => answerBound (state q))
           step_answerBound evs p H).
Qed.


(** The requests one event adds to the log. *)
Lemma step_sent (p p' : Page) :
  step p p' ->
  sent p' = sent p \/ exists s, sent p' = s :: sent p /\ sentByPage s.
Proof.
  intros Hs; destruct Hs; cbn; auto; right; eexists;
    (split; [reflexivity|]); repeat split; cbn; auto.
Qed.

(** X23: the request log only grows, by at most one request per event,
    and every request the page sends is a POST to the documents or to the
    analyze endpoint, sent with the error cleared and the busy flag of its
    flow set: the page never lists the documents and never sends a request
    while showing an error. *)
Theorem X23_page_sends_only_its_two_posts (p : Page) (evs : list App.Event) :
  exists newer,
    sent (App.afterAll b evs p) = List.app newer (sent p)
    /\ List.length newer <= List.length evs
    /\ Forall sentByPage newer.
Proof.
  revert p; induction evs as [|ev evs IH]; intros p.
  - exists []. repeat split; auto.
  - change (App.afterAll b (ev :: evs) p)
      with (App.afterAll b evs (App.after b ev p)).
    destruct (IH (App.after b ev p)) as (newer & -> & Hlen & Hall).
    destruct (step_sent p _ (after_step ev p)) as [-> | (s & -> & Hs)].
    + exists newer. repeat split; cbn; auto.
    + exists (List.app newer [s]). rewrite <- app_assoc. split; [reflexivity|].
      split; [rewrite length_app; cbn; lia|].
      apply Forall_app. auto.
Qed.

End Invariants.

Lemma firstPage_atRest : atRest (state firstPage).
Proof. split; reflexivity. Qed.

Lemma firstPage_answerBound : answerBound (state firstPage).
Proof. split; [reflexivity | intros H; now destruct H]. Qed.


Lemma X20_busy_flags_come_down_witness :
  atRest (state firstPage)
  /\ isUploading (state (App.afterAll notesBackend wholeSession firstPage))
     = false
  /\ isAnalyzing (state (App.afterAll notesBackend wholeSession firstPage))
     = false
  /\ App.fileInputDisabled
       (state (App.afterAll notesBackend wholeSession firstPage))
     = false.
Proof.
  exact (conj firstPage_atRest
           (X20_busy_flags_come_down notesBackend firstPage wholeSession
              firstPage_atRest)).
Defined.

Lemma X21_answer_stays_bound_witness :
  answerBound (state firstPage)
  /\ (let s := state (App.afterAll notesBackend wholeSession firstPage) in
      highlights s
      = match result s with
        | Some a => AnalyzeResponse.claims a
        | None => []
        end
      /\ (result s <> None -> JS.truthyNumber (activeDocId s) = true)).
Proof.
  exact (conj firstPage_answerBound
           (X21_answer_stays_bound notesBackend firstPage wholeSession
              firstPage_answerBound)).
Defined.


(* ------------------------------------------------------------------ *)
(** ** How the two flows compose *)

(** X24: an upload that returned empties the question box: with the new
    document active (an id other than 0) and no analysis running, the
    question box is enabled and the Analyze button is disabled, and the
    button stays disabled exactly as long as the text typed into the
    question box is blank. *)
Theorem X24_upload_calls_for_a_new_question
    (b : Backend) (p : Page) (file : File) (others : list File)
    (r : UploadResponse.t) (typed : string) :
  endsInPdf (name file) ->
  fst (Api.uploadDocument file None b p) = Returned r ->
  UploadResponse.id r <> 0%Z ->
  isAnalyzing (state p) = false ->
  let p1 := App.after b (pick file others) p in
  let p2 := App.after b (App.QuestionChange typed) p1 in
  question (state p1) = ""
  /\ App.questionDisabled (state p1) = false
  /\ App.analyzeDisabled (state p1) = true
  /\ (App.analyzeDisabled (state p2) = true <-> blank typed).
Proof.
  intros H Hr Hz Hrun. cbv zeta.
  assert (E1 : App.after b (pick file others) p = uploadedPage file r p).
  { unfold App.after, pick, App.dispatch.
    now rewrite (handleUpload_returned b p file others r H Hr). }
  rewrite E1, after_QuestionChange.
  unfold App.questionDisabled, App.analyzeDisabled.
  cbn [state withState uploadedPage uploadedState questionState activeDocId
       question isAnalyzing JS.truthyNumber].
  apply Z.eqb_neq in Hz. rewrite Hz, Hrun. cbn [negb orb].
  split; [reflexivity|]. split; [reflexivity|]. split; [reflexivity|].
  rewrite <- trim_blank. unfold JS.truthyString.
  destruct (String.eqb_spec (JS.trim typed) ""); cbn; split; congruence.
Qed.

Lemma X24_upload_calls_for_a_new_question_witness :
  endsInPdf (name notes_pdf)
  /\ fst (Api.uploadDocument notes_pdf None notesBackend notesPage)
     = Returned notesUploaded
  /\ UploadResponse.id notesUploaded <> 0%Z
  /\ isAnalyzing (state notesPage) = false
  /\ (let p1 := App.after notesBackend (pick notes_pdf []) notesPage in
      let p2 :=
        App.after notesBackend (App.QuestionChange "What is the thesis?") p1
      in
      question (state p1) = ""
      /\ App.questionDisabled (state p1) = false
      /\ App.analyzeDisabled (state p1) = true
      /\ (App.analyzeDisabled (state p2) = true
          <-> blank "What is the thesis?")).
Proof.
  exact (conj notes_pdf_is_pdf
           (conj eq_refl
              (conj seven_not_zero
                 (conj eq_refl
                    (X24_upload_calls_for_a_new_question notesBackend
                       notesPage notes_pdf [] notesUploaded
                       "What is the thesis?" notes_pdf_is_pdf eq_refl
                       seven_not_zero eq_refl))))).
Defined.

(** X25: an analysis can be repeated as it is: with an active document
    and a question that is not blank, a second click on Analyze, whether
    the first analysis returned or threw, sends the same request again
    (nothing is cached and a failure does not block the flow). *)
Theorem X25_analysis_can_be_repeated
    (b : Backend) (p : Page) (docId : Z) :
  activeDocId (state p) = Some docId ->
  docId <> 0%Z ->
  JS.trim (question (state p)) <> "" ->
  let p2 := App.after b App.AnalyzeClick (App.after b App.AnalyzeClick p) in
  map request (sent p2)
  = analyzeRequest docId (question (state p))
    :: analyzeRequest docId (question (state p))
    :: map request (sent p).
Proof.
  intros Ha Hz Hq. cbv zeta. unfold App.after, App.dispatch.
  assert (Hsent : forall q : Page,
             activeDocId (state q) = Some docId ->
             JS.trim (question (state q)) <> "" ->
             map request (sent (snd (App.handleAnalyze b q)))
             = analyzeRequest docId (question (state q))
               :: map request (sent q)).
  { intros q Hqa Hqq.
    destruct (fst (Api.analyzeDocument docId (question (state q)) b q))
      as [a|e] eqn:E.
    - now rewrite (handleAnalyze_returned b q docId a Hqa Hz Hqq E).
    - now rewrite (handleAnalyze_threw b q docId e Hqa Hz Hqq E). }
  pose proof (X := handleAnalyze_keeps_document b p).
  assert (Hkeep : question (state (snd (App.handleAnalyze b p)))
                  = question (state p)).
  { destruct (handleAnalyze_cases b p)
      as [-> | [-> | [(d & a & _ & _ & ->) | (d & e & _ & _ & ->)]]];
      reflexivity. }
  rewrite Hsent; [| now rewrite X | now rewrite Hkeep].
  rewrite Hkeep, Hsent by assumption. reflexivity.
Qed.

Lemma X25_analysis_can_be_repeated_witness :
  activeDocId (state notesPage) = Some 7%Z
  /\ 7%Z <> 0%Z
  /\ JS.trim (question (state notesPage)) <> ""
  /\ (let p2 :=
        App.after offline App.AnalyzeClick
          (App.after offline App.AnalyzeClick notesPage) in
      map request (sent p2)
      = analyzeRequest 7 (question (state notesPage))
        :: analyzeRequest 7 (question (state notesPage))
        :: map request (sent notesPage)).
Proof.
  exact (conj eq_refl
           (conj seven_not_zero
              (conj thesis_question_not_blank
                 (X25_analysis_can_be_repeated offline notesPage 7 eq_refl
                    seven_not_zero thesis_question_not_blank)))).
Defined.

(* ------------------------------------------------------------------ *)
(** ** The two status helpers together *)

(** X26: the colour and the icon always tell the same thing: two statuses
    get the same colour classes exactly when they get the same icon. *)
Theorem X26_colour_and_icon_agree (status1 status2 : string) :
  App.getStatusColor status1 = App.getStatusColor status2
  <-> App.getStatusIcon status1 = App.getStatusIcon status2.
Proof.
  unfold App.getStatusColor, App.getStatusIcon.
  destruct (status1 =? "VERIFIED"), (status1 =? "LIKELY"),
    (status1 =? "UNVERIFIED"), (status2 =? "VERIFIED"),
    (status2 =? "LIKELY"), (status2 =? "UNVERIFIED");
    split; intros H; first [reflexivity | discriminate H].
Qed.

(** X8: after an analysis that returned, the page shows one citation
    card per claim of the response, in the order of the response, each
    with the colour classes and the icon of its own status; a response
    without claims shows no card. *)
Theorem X8_one_card_per_claim
    (b : Backend) (p : Page) (docId : Z) (a : AnalyzeResponse.t) :
  activeDocId (state p) = Some docId ->
  docId <> 0%Z ->
  JS.trim (question (state p)) <> "" ->
  fst (Api.analyzeDocument docId (question (state p)) b p) = Returned a ->
  App.citations (state (snd (App.handleAnalyze b p)))
  = map (fun claim =>
           ("p-4 rounded-xl border "
            ++ App.getStatusColor (Claim.status claim),
            App.getStatusIcon (Claim.status claim)))
        (AnalyzeResponse.claims a).
Proof.
  intros Ha Hz Hq Hr. rewrite (handleAnalyze_returned b p docId a Ha Hz Hq Hr).
  unfold App.citations. cbn [snd state analyzedPage analyzedState result
                             highlights].
  destruct (AnalyzeResponse.claims a); reflexivity.
Qed.

Lemma X8_one_card_per_claim_witness :
  activeDocId (state notesPage) = Some 7%Z
  /\ 7%Z <> 0%Z
  /\ JS.trim (question (state notesPage)) <> ""
  /\ fst (Api.analyzeDocument 7 (question (state notesPage)) notesBackend
            notesPage)
     = Returned thesisAnalyzed
  /\ App.citations (state (snd (App.handleAnalyze notesBackend notesPage)))
     = map (fun claim =>
              ("p-4 rounded-xl border "
               ++ App.getStatusColor (Claim.status claim),
               App.getStatusIcon (Claim.status claim)))
           (AnalyzeResponse.claims thesisAnalyzed).
Proof.
  exact (conj eq_refl
           (conj seven_not_zero
              (conj thesis_question_not_blank
                 (conj eq_refl
                    (X8_one_card_per_claim notesBackend notesPage 7
                       thesisAnalyzed eq_refl seven_not_zero
                       thesis_question_not_blank eq_refl))))).
Defined.
